(** * TWAP dashboard: the fetch loop and the windowed average

    A shallow embedding of [get_twap_last_5_business_days] (script.py).

    - Timestamps are Python integers, milliseconds since the epoch: [Z].
    - Prices are the numbers pandas computes with.  The arithmetic the
      function uses (addition, division, conversion of a count, the test
      for a missing value) is an interface, [PriceArith].  The code runs
      at its IEEE binary64 instance ([PrimFloat]); the instance of exact
      rationals [Qc] shows what the same computation gives when nothing
      is rounded.
    - [Series.mean()] is pandas' mean: missing values are skipped and the
      rest are added in numpy's pairwise order.
    - The exchange and the clock are the outside world: a state [W] with
      two operations, [fetch_ohlcv] and [utcnow], threaded explicitly.
    - [while True] is a fuel-indexed loop; running dry is [OutOfFuel],
      kept apart from returning and from raising. *)

From Stdlib Require Import String.
From Stdlib Require Import ZArith List Lia Bool.
From Stdlib Require Import QArith Qcanon Lqa.
From Stdlib Require Import Permutation Sorting.Sorted.
From Stdlib Require Import Floats.
Import ListNotations.

Local Open Scope Z_scope.

(** ** Price arithmetic *)

Class PriceArith (R : Type) := {
  radd : R -> R -> R;
  rdiv : R -> R -> R;
  rzero : R;
  of_count : nat -> R;
  (** [NaN], and pandas' [isna] on a numeric column *)
  rnan : R;
  is_na : R -> bool
}.

(** Exact rationals: nothing is rounded and no value is missing ([rnan]
    is never produced by a non-empty column). *)
#[global] Instance QcArith : PriceArith Qc := {
  radd := Qcplus;
  rdiv := Qcdiv;
  rzero := Q2Qc 0;
  of_count n := Q2Qc (inject_Z (Z.of_nat n));
  rnan := Q2Qc 0;
  is_na := fun _ => false
}.

(** An integer count as a binary64 number (exact below 2^53). *)
Fixpoint float_of_pos (p : positive) : float :=
  match p with
  | xH => PrimFloat.one
  | xO q => PrimFloat.mul PrimFloat.two (float_of_pos q)
  | xI q =>
      PrimFloat.add (PrimFloat.mul PrimFloat.two (float_of_pos q))
                    PrimFloat.one
  end.

Definition float_of_nat (n : nat) : float :=
  match n with
  | O => PrimFloat.zero
  | S _ => float_of_pos (Pos.of_nat n)
  end.

(** The arithmetic of a float64 column. *)
#[global] Instance FloatArith : PriceArith float := {
  radd := PrimFloat.add;
  rdiv := PrimFloat.div;
  rzero := PrimFloat.zero;
  of_count := float_of_nat;
  rnan := PrimFloat.nan;
  is_na := PrimFloat.is_nan
}.

(** ** Candles and the data frame *)

Section Frame.

Context {R : Type} `{PriceArith R}.

(** One row of [ohlcv]: [[timestamp, open, high, low, close, volume]]. *)
Record candle := mkCandle {
  timestamp : Z;
  open : R;
  high : R;
  low : R;
  close : R;
  volume : R
}.

(** A row of the returned frame: the six columns and [typical_price].
    Line 50 re-types the timestamp column as [datetime64]; it stays the
    same instant, kept here as its milliseconds. *)
Record row := mkRow {
  bar : candle;
  typical_price : R
}.

(** [(df["high"] + df["low"] + df["close"]) / 3], one row. *)
Definition typical (c : candle) : R :=
  rdiv (radd (radd (high c) (low c)) (close c)) (of_count 3).

(** numpy's pairwise sum of a float64 array, as [ndarray.sum] runs it.

    Eight running sums: [r[j] += a[i + j]]. *)
Fixpoint add_into (r chunk : list R) : list R :=
  match r, chunk with
  | x :: r', c :: chunk' => radd x c :: add_into r' chunk'
  | _, _ => r
  end.

(** The unrolled loop over [k] further blocks of eight. *)
Fixpoint unrolled (k : nat) (r a : list R) : list R * list R :=
  match k with
  | O => (r, a)
  | S k' => unrolled k' (add_into r (firstn 8 a)) (skipn 8 a)
  end.

(** [((r0 + r1) + (r2 + r3)) + ((r4 + r5) + (r6 + r7))] *)
Definition combine8 (r : list R) : R :=
  match r with
  | [r0; r1; r2; r3; r4; r5; r6; r7] =>
      radd (radd (radd r0 r1) (radd r2 r3))
           (radd (radd r4 r5) (radd r6 r7))
  | _ => fold_left radd r rzero
  end.

(** Fewer than 8 entries: a plain loop (numpy starts it at -0.0; added to
    the zero the reduction starts from, the result is the same).  Up to
    128: eight running sums over the whole blocks of eight, combined, then
    the remainder one by one.  Beyond: the two halves, the first cut at a
    multiple of eight.  [fuel] bounds the depth of the halving. *)
Fixpoint pairwise_sum (fuel : nat) (a : list R) : R :=
  let n := length a in
  if (n <? 8)%nat then fold_left radd a rzero
  else if (n <=? 128)%nat then
    let (r, rest) := unrolled (n / 8 - 1) (firstn 8 a) (skipn 8 a) in
    fold_left radd rest (combine8 r)
  else
    match fuel with
    | O => rzero
    | S fuel' =>
      let n2 := (n / 2 - (n / 2) mod 8)%nat in
      radd (pairwise_sum fuel' (firstn n2 a)) (pairwise_sum fuel' (skipn n2 a))
    end.

(** [values.sum()]: the reduction starts from zero. *)
Definition np_sum (a : list R) : R :=
  radd rzero (pairwise_sum (length a) a).

(** [Series.mean()], pandas' [nanmean] with [skipna=True]: missing values
    count for nothing, and are replaced by zero in the array that is
    summed; the sum is divided by the count of the values present; with
    none present the mean is [NaN]. *)
Definition nan_to_zero (xs : list R) : list R :=
  map (fun x => if is_na x then rzero else x) xs.

Definition count_present (xs : list R) : nat :=
  length (filter (fun x => negb (is_na x)) xs).

Definition mean (xs : list R) : R :=
  match count_present xs with
  | O => rnan
  | S _ as count => rdiv (np_sum (nan_to_zero xs)) (of_count count)
  end.

(** The mean in the spec's words: every entry once, added in order, over
    the number of entries. *)
Definition arithmetic_mean (xs : list R) : R :=
  rdiv (fold_left radd xs rzero) (of_count (length xs)).

End Frame.

Arguments candle R : clear implicits.
Arguments row R : clear implicits.

(** ** The outside world

    What the exchange answers to one [fetch_ohlcv] call: a page of candles
    or an exception (named by its message). *)
Inductive response (R : Type) :=
| Page (batch : list (candle R))
| Failure (e : string).

Arguments Page {R} batch.
Arguments Failure {R} e.

(** What the function observes of the world, in order. *)
Inductive event (R : Type) :=
| ClockRead (t : Z)
| Fetched (since : Z) (r : response R).

Arguments ClockRead {R} t.
Arguments Fetched {R} since r.

(** How a piece of the program ends. *)
Inductive outcome (A : Type) :=
| Return (a : A)
| Raise (e : string)
| OutOfFuel.

Arguments Return {A} a.
Arguments Raise {A} e.
Arguments OutOfFuel {A}.

(** A finished piece of the program: how it ended, what it observed and
    the world it left behind. *)
Record ran (R W A : Type) := mkRan {
  out : outcome A;
  trace : list (event R);
  final : W
}.

Arguments mkRan {R W A} out trace final.
Arguments out {R W A} r.
Arguments trace {R W A} r.
Arguments final {R W A} r.

(** The page responses of a trace, and its clock readings. *)
Fixpoint responses {R : Type} (tr : list (event R)) : list (response R) :=
  match tr with
  | [] => []
  | ClockRead _ :: tl => responses tl
  | Fetched _ r :: tl => r :: responses tl
  end.

Fixpoint clock_reads {R : Type} (tr : list (event R)) : list Z :=
  match tr with
  | [] => []
  | ClockRead t :: tl => t :: clock_reads tl
  | Fetched _ _ :: tl => clock_reads tl
  end.

(** The cursors ([since]) of the page requests of a trace. *)
Fixpoint cursors {R : Type} (tr : list (event R)) : list Z :=
  match tr with
  | [] => []
  | ClockRead _ :: tl => cursors tl
  | Fetched s _ :: tl => s :: cursors tl
  end.

(** ** Dates

    A naive [datetime] is a count of microseconds on the 1970-based
    timeline; a [date] is a count of days on it.  Candle timestamps are
    milliseconds. *)
Definition day_us : Z := 86400000000.
Definition day_ms : Z := 86400000.

(** [datetime.date()] *)
Definition date_of_us (t : Z) : Z := t / day_us.

(** [pd.to_datetime(ts, unit="ms").dt.date] *)
Definition date_of_ms (ts : Z) : Z := ts / day_ms.

(** [date.weekday()]: Monday is 0; day 0 (1970-01-01) was a Thursday. *)
Definition weekday (d : Z) : Z := (d + 3) mod 7.

(** Strictly increasing timestamps, as a check that runs. *)
Fixpoint ascending (ts : list Z) : bool :=
  match ts with
  | a :: (b :: _) as tl => (a <? b) && ascending tl
  | _ => true
  end.

(** ** Observations on traces *)

Section Traces.

Context {R : Type}.

(** The candles delivered, page after page. *)
Fixpoint batches (tr : list (event R)) : list (list (candle R)) :=
  match tr with
  | [] => []
  | Fetched _ (Page b) :: tl => b :: batches tl
  | _ :: tl => batches tl
  end.

(** The exchange kept its side for this request: the page is in strict
    time order and starts no earlier than the cursor asked for. *)
Definition page_ok (e : event R) : bool :=
  match e with
  | Fetched s (Page b) =>
      ascending (map timestamp b) && forallb (fun c => s <=? timestamp c) b
  | _ => true
  end.

(** Each request after a page asks for that page's last timestamp plus
    one. *)
Fixpoint cursor_follows (tr : list (event R)) : bool :=
  match tr with
  | Fetched _ (Page (c :: rest)) :: (Fetched s' _ :: _) as tl =>
      (s' =? timestamp (last rest c) + 1) && cursor_follows tl
  | _ :: tl => cursor_follows tl
  | [] => true
  end.

(** The three ways a response ends the loop, and the one way it goes on. *)
Definition stops (now_ms : Z) (r : response R) : bool :=
  match r with
  | Failure _ => true
  | Page [] => true
  | Page (c :: rest) => timestamp (last rest c) >? now_ms
  end.

(** A run of responses as the loop leaves it: every response but the last
    lets the loop go on, and the last one stops it. *)
Fixpoint stops_at_end (now_ms : Z) (rs : list (response R)) : bool :=
  match rs with
  | [] => false
  | [r] => stops now_ms r
  | r :: tl => negb (stops now_ms r) && stops_at_end now_ms tl
  end.

(** What a run of responses makes of the list being gathered: the pages
    appended in order, or the first failure. *)
Fixpoint collect (ohlcv : list (candle R)) (rs : list (response R))
    : outcome (list (candle R)) :=
  match rs with
  | [] => Return ohlcv
  | Failure e :: _ => Raise e
  | Page b :: tl => collect (ohlcv ++ b) tl
  end.

Definition is_failure (e : event R) : bool :=
  match e with
  | Fetched _ (Failure _) => true
  | _ => false
  end.

End Traces.

(** ** The program *)

Section Program.

Context {R : Type} `{PriceArith R}.

Variable W : Type.

(** [datetime.datetime.utcnow()] *)
Variable utcnow : W -> Z * W.

(** [exchange.fetch_ohlcv(symbol, timeframe, since=since, limit=limit)] *)
Variable fetch_ohlcv : string -> string -> Z -> Z -> W -> response R * W.

(** [int(dt.timestamp() * 1000)] of a naive [dt]: it reads the local time
    zone of the process. *)
Variable epoch_ms : Z -> Z.

Definition limit : Z := 1000.

(** Lines 30-46.  [ohlcv] is the list being extended, [since] the cursor. *)
Fixpoint fetch_loop (fuel : nat) (symbol timeframe : string) (now_ms : Z)
    (since : Z) (ohlcv : list (candle R)) (w : W)
    : ran R W (list (candle R)) :=
  match fuel with
  | O => mkRan OutOfFuel [] w
  | S fuel' =>
    let (batch, w1) := fetch_ohlcv symbol timeframe since limit w in
    match batch with
    | Failure e => mkRan (Raise e) [Fetched since batch] w1
    | Page [] => mkRan (Return ohlcv) [Fetched since batch] w1
    | Page (c :: rest) =>
      let ohlcv' := ohlcv ++ c :: rest in
      let last_timestamp := timestamp (last rest c) in
      let since' := last_timestamp + 1 in
      if last_timestamp >? now_ms
      then mkRan (Return ohlcv') [Fetched since batch] w1
      else
        let r := fetch_loop fuel' symbol timeframe now_ms since' ohlcv' w1 in
        mkRan (out r) (Fetched since batch :: trace r) (final r)
    end
  end.

(** The exchange never answers with a candle from before the cursor. *)
Definition honours_since (symbol timeframe : string) : Prop :=
  forall (s : Z) (w w' : W) (b : list (candle R)),
    fetch_ohlcv symbol timeframe s limit w = (Page b, w') ->
    forallb (fun c => s <=? timestamp c) b = true.

(** Line 55: the rows kept by the date filter. *)
Definition keep (cutoff : Z) (c : candle R) : bool :=
  cutoff <=? date_of_ms (timestamp c).

(** Line 61: the new column. *)
Definition with_typical (c : candle R) : row R := mkRow c (typical c).

(** Lines 49-66: from the fetched rows to the result; [None] is
    [(None, None)]. *)
Definition aggregate (ohlcv : list (candle R)) (today days_to_fetch : Z)
    : option (R * list (row R)) :=
  let five_business_days_ago := today - days_to_fetch in
  let df := filter (keep five_business_days_ago) ohlcv in
  match df with
  | [] => None
  | _ :: _ =>
    let df' := map with_typical df in
    let twap_value := mean (map typical_price df') in
    Some (twap_value, df')
  end.

Definition get_twap_last_5_business_days (fuel : nat)
    (symbol timeframe : string) (days_to_fetch : Z) (w : W)
    : ran R W (option (R * list (row R))) :=
  let (end_time, w1) := utcnow w in
  let start_time := end_time - days_to_fetch * day_us in
  let since := epoch_ms start_time in
  let now_ms := epoch_ms end_time in
  let lp := fetch_loop fuel symbol timeframe now_ms since [] w1 in
  match out lp with
  | Return ohlcv =>
    let (now2, w2) := utcnow (final lp) in
    let today := date_of_us now2 in
    mkRan (Return (aggregate ohlcv today days_to_fetch))
          (ClockRead end_time :: trace lp ++ [ClockRead now2]) w2
  | Raise e => mkRan (Raise e) (ClockRead end_time :: trace lp) (final lp)
  | OutOfFuel => mkRan OutOfFuel (ClockRead end_time :: trace lp) (final lp)
  end.

(** The result as a function of what was observed: the pages received,
    the clock readings (the last one gives [today]) and the window. *)
Definition replay (days_to_fetch : Z) (rs : list (response R)) (cs : list Z)
    : outcome (option (R * list (row R))) :=
  match collect [] rs with
  | Return ohlcv =>
      Return (aggregate ohlcv (date_of_us (last cs 0)) days_to_fetch)
  | Raise e => Raise e
  | OutOfFuel => OutOfFuel
  end.

(** The candles of a result; none when it is [(None, None)]. *)
Definition kept (res : option (R * list (row R))) : list (candle R) :=
  match res with
  | None => []
  | Some (_, df) => map bar df
  end.

End Program.

(** What a trace tells of the run: the rows fetched and the date of the
    last clock reading. *)
Definition fetched {R : Type} (tr : list (event R)) : list (candle R) :=
  concat (batches tr).

Definition today_of {R : Type} (tr : list (event R)) : Z :=
  date_of_us (last (clock_reads tr) 0).

(** ** Worlds to run the program in *)

Section Worlds.

Context {R : Type}.

(** An exchange that holds a fixed book of candles and serves, for a
    cursor, the first [limit] of them at or after it. *)
Definition book_fetch (book : list (candle R))
    (symbol timeframe : string) (since lim : Z) (w : Z) : response R * Z :=
  (Page (firstn (Z.to_nat lim)
           (filter (fun c => since <=? timestamp c) book)), w).

(** An outside world that plays back a script: clock readings in the
    order they are asked for, and responses whatever is asked; after the
    script the clock reads zero and the exchange has no more candles. *)
Definition script_fetch
    (symbol timeframe : string) (since lim : Z)
    (w : list Z * list (response R))
    : response R * (list Z * list (response R)) :=
  match snd w with
  | [] => (Page [], w)
  | r :: tl => (r, (fst w, tl))
  end.

Definition script_clock (w : list Z * list (response R))
    : Z * (list Z * list (response R)) :=
  match fst w with
  | [] => (0, w)
  | t :: tl => (t, (tl, snd w))
  end.

(** A clock that stands still. *)
Definition still_clock (w : Z) : Z * Z := (w, w).

End Worlds.

(** A process whose local zone is UTC: the epoch milliseconds of a naive
    UTC datetime, taken exactly.  The code goes through a float
    ([float_epoch_ms]); the two agree on the readings of the scenarios. *)
Definition utc_epoch_ms (t : Z) : Z := t / 1000.

(** A process one hour east of UTC: the naive UTC reading is taken for
    local time, so the epoch value is an hour early. *)
Definition cet_epoch_ms (t : Z) : Z := (t - 3600000000) / 1000.

(** A candle with one price in every column. *)
Definition flat {R : Type} (ts : Z) (p : R) : candle R :=
  mkCandle ts p p p p p.

(** ** Scenarios

    Noon of day 20 on the naive timeline, and candles at noon of days 16,
    17 and 18 with typical prices 10, 20 and 30. *)
Definition noon20 : Z := 20 * day_us + 43200000000.

Definition noon_ms (day : Z) : Z := day * day_ms + 43200000.

Definition c16 : candle Qc := flat (noon_ms 16) (Q2Qc 10).
Definition c17 : candle Qc := flat (noon_ms 17) (Q2Qc 20).
Definition c18 : candle Qc := flat (noon_ms 18) (Q2Qc 30).

(** A candle one minute later than the clock reading [noon20]. *)
Definition c_late : candle Qc := flat (noon_ms 20 + 60000) (Q2Qc 10).

(** A candle from day 3, long before any window of the scenarios. *)
Definition c_old : candle Qc := flat (noon_ms 3) (Q2Qc 10).

(** Three binary64 candles, and the same three in another order. *)
Definition big_first : list (candle float) :=
  [flat (noon_ms 16) 1e16%float; flat (noon_ms 17) 1%float;
   flat (noon_ms 18) 1%float].

Definition big_last : list (candle float) :=
  [flat (noon_ms 17) 1%float; flat (noon_ms 18) 1%float;
   flat (noon_ms 16) 1e16%float].

(** One binary64 candle: high 3, low 1, close 2. *)
Definition one_bar : list (candle float) :=
  [mkCandle (noon_ms 18) 2.5%float 3%float 1%float 2%float 100%float].

(** A Saturday and a Sunday candle (days 2 and 3), for a Monday (day 4). *)
Definition c_sat : candle Qc := flat (noon_ms 2) (Q2Qc 10).
Definition c_sun : candle Qc := flat (noon_ms 3) (Q2Qc 20).

(** The scripted worlds of the scenarios: the clock readings, then the
    responses. *)
Definition two_pages : list Z * list (response Qc) :=
  ([noon20; noon20], [Page [c16; c17]; Page [c18]; Page []]).

Definition late_page : list Z * list (response Qc) :=
  ([noon20; noon20], [Page [c_late]]).

Definition old_page : list Z * list (response Qc) :=
  ([noon20; noon20], [Page [c_old]]).

Definition failing_second : list Z * list (response Qc) :=
  ([noon20; noon20], [Page [c16]; Failure "NetworkError"]).

Definition over_midnight : list Z * list (response Qc) :=
  ([noon20; noon20 + day_us], [Page [c16; c17]; Page []]).

Definition as_book : list Z * list (response Qc) :=
  ([noon20; noon20], [Page [c16; c17; c18]; Page []]).

(** A book in small numbers, for a range of five milliseconds. *)
Definition small_book : list (candle Qc) :=
  [flat 1 (Q2Qc 10); flat 3 (Q2Qc 20)].

(** The runs of the scenarios. *)
Definition loop_two_pages : ran Qc _ (list (candle Qc)) :=
  fetch_loop _ script_fetch 5 "X/USDT" "1d" (noon_ms 20) (noon_ms 15) []
    two_pages.

Definition loop_small_book : ran Qc Z (list (candle Qc)) :=
  fetch_loop Z (book_fetch small_book) 7 "X/USDT" "1m" 5 0 [] 0.

Definition run_book : ran Qc Z (option (Qc * list (row Qc))) :=
  get_twap_last_5_business_days Z still_clock (book_fetch [c16; c17; c18])
    utc_epoch_ms 5 "X/USDT" "1d" 5 noon20.

Definition run_as_book : ran Qc _ (option (Qc * list (row Qc))) :=
  get_twap_last_5_business_days _ script_clock script_fetch
    cet_epoch_ms 9 "Y/USDT" "1h" 5 as_book.

Definition run_old : ran Qc _ (option (Qc * list (row Qc))) :=
  get_twap_last_5_business_days _ script_clock script_fetch
    utc_epoch_ms 5 "X/USDT" "1d" 5 old_page.

Definition run_failing : ran Qc _ (option (Qc * list (row Qc))) :=
  get_twap_last_5_business_days _ script_clock script_fetch
    utc_epoch_ms 5 "X/USDT" "1d" 5 failing_second.

Definition run_over_midnight : ran Qc _ (option (Qc * list (row Qc))) :=
  get_twap_last_5_business_days _ script_clock script_fetch
    utc_epoch_ms 5 "X/USDT" "1d" 4 over_midnight.

Definition run_late : ran Qc _ (option (Qc * list (row Qc))) :=
  get_twap_last_5_business_days _ script_clock script_fetch
    utc_epoch_ms 5 "X/USDT" "1m" 5 late_page.

(** The rows of an outcome; none unless it is a returned frame. *)
Definition result_rows {R : Type} (o : outcome (option (R * list (row R))))
    : list (row R) :=
  match o with
  | Return (Some (_, df)) => df
  | _ => []
  end.

(** ** The window in the spec's words

    At or after the start [since] and at
    or before [now_ms]. *)
Definition within_window {R : Type} (since now_ms : Z) (df : list (row R))
    : Prop :=
  Forall (fun rw => since <= timestamp (bar rw) <= now_ms) df.

(** ** More observations

    The page starts no earlier than the cursor asked for (its order is
    not looked at). *)
Definition page_from_since {R : Type} (e : event R) : bool :=
  match e with
  | Fetched s (Page b) => forallb (fun c => s <=? timestamp c) b
  | _ => true
  end.

(** Two candles that agree on everything the function reads: the
    timestamp, high, low and close. *)
Definition same_read_columns {R : Type} (c1 c2 : candle R) : Prop :=
  timestamp c1 = timestamp c2 /\ high c1 = high c2 /\
  low c1 = low c2 /\ close c1 = close c2.

(** ** The dashboard

    What [main] puts on the page, in order.  Texts are kept as the values
    they are formatted from. *)
Inductive shown (R : Type) :=
| Title
| Fetching (tokens : list string)
| Subheader (token : string)
| TwapLine (days : Z) (twap : R)
| LineChart (points : list (Z * R))
| Warning (token : string)
| SummaryHeading
| SummaryTable (rows : list (string * R)).

Arguments Title {R}.
Arguments Fetching {R} tokens.
Arguments Subheader {R} token.
Arguments TwapLine {R} days twap.
Arguments LineChart {R} points.
Arguments Warning {R} token.
Arguments SummaryHeading {R}.
Arguments SummaryTable {R} rows.

(** What the widgets hand back: the tokens picked, the timeframe, the
    slider's value and whether the button was pressed. *)
Record widgets := mkWidgets {
  selected_tokens : list string;
  timeframe : string;
  days_to_fetch : Z;
  pressed : bool
}.

(** A page being built: how the script ended, what is on the page, what
    was observed of the world, and the world left behind. *)
Record session (R W A : Type) := mkSession {
  ended : outcome A;
  screen : list (shown R);
  observed : list (event R);
  world : W
}.

Arguments mkSession {R W A} ended screen observed world.
Arguments ended {R W A} s.
Arguments screen {R W A} s.
Arguments observed {R W A} s.
Arguments world {R W A} s.

(** The tokens that got a panel or a warning, in the order shown; [true]
    marks a panel. *)
Fixpoint token_marks {R : Type} (sc : list (shown R)) : list (string * bool) :=
  match sc with
  | [] => []
  | Subheader t :: tl => (t, true) :: token_marks tl
  | Warning t :: tl => (t, false) :: token_marks tl
  | _ :: tl => token_marks tl
  end.

(** The panels on the page: each subheader with the TWAP written under
    it. *)
Fixpoint panels {R : Type} (sc : list (shown R)) : list (string * R) :=
  match sc with
  | [] => []
  | Subheader t :: ((TwapLine _ v :: _) as tl) => (t, v) :: panels tl
  | _ :: tl => panels tl
  end.

(** The summary tables on the page. *)
Fixpoint summaries {R : Type} (sc : list (shown R))
    : list (list (string * R)) :=
  match sc with
  | [] => []
  | SummaryTable rows :: tl => rows :: summaries tl
  | _ :: tl => summaries tl
  end.

Section Dashboard.

Context {R : Type} `{PriceArith R}.
Variable W : Type.
Variable utcnow : W -> Z * W.
Variable fetch_ohlcv : string -> string -> Z -> Z -> W -> response R * W.
Variable epoch_ms : Z -> Z.

(** [df.set_index("timestamp")["typical_price"]] *)
Definition chart_points (df : list (row R)) : list (Z * R) :=
  map (fun rw => (timestamp (bar rw), typical_price rw)) df.

(** Lines 100-113: the loop over the tokens picked; [results] is the list
    being appended to. *)
Fixpoint for_tokens (fuel : nat) (tf : string) (days : Z)
    (tokens : list string) (results : list (string * R)) (w : W)
    : session R W (list (string * R)) :=
  match tokens with
  | [] => mkSession (Return results) [] [] w
  | token :: rest =>
    let r := get_twap_last_5_business_days W utcnow fetch_ohlcv epoch_ms
               fuel token tf days w in
    match out r with
    | Return (Some (twap, df)) =>
      let s := for_tokens fuel tf days rest (results ++ [(token, twap)])
                 (final r) in
      mkSession (ended s)
        (Subheader token :: TwapLine days twap :: LineChart (chart_points df)
           :: screen s)
        (trace r ++ observed s) (world s)
    | Return None =>
      let s := for_tokens fuel tf days rest results (final r) in
      mkSession (ended s) (Warning token :: screen s)
        (trace r ++ observed s) (world s)
    | Raise e => mkSession (Raise e) [] (trace r) (final r)
    | OutOfFuel => mkSession OutOfFuel [] (trace r) (final r)
    end
  end.

(** Lines 72-119. *)
Definition main (fuel : nat) (ui : widgets) (w : W) : session R W unit :=
  if pressed ui then
    let s := for_tokens fuel (timeframe ui) (days_to_fetch ui)
               (selected_tokens ui) [] w in
    match ended s with
    | Return results =>
      mkSession (Return tt)
        (Title :: Fetching (selected_tokens ui) :: screen s ++
           match results with
           | [] => []
           | _ :: _ => [SummaryHeading; SummaryTable results]
           end)
        (observed s) (world s)
    | Raise e =>
      mkSession (Raise e)
        (Title :: Fetching (selected_tokens ui) :: screen s)
        (observed s) (world s)
    | OutOfFuel =>
      mkSession OutOfFuel
        (Title :: Fetching (selected_tokens ui) :: screen s)
        (observed s) (world s)
    end
  else mkSession (Return tt) [Title] [] w.

End Dashboard.

(** The dashboard scenarios: a book behind every token, and a script
    whose second token fails. *)
Definition ui_two : widgets :=
  mkWidgets ["FARTBOY/USDT"; "ASV/USDT"]%string "1d"%string 5 true.

Definition main_book : session Qc Z unit :=
  main Z still_clock (book_fetch [c16; c17; c18]) utc_epoch_ms 5 ui_two noon20.

Definition failing_token : list Z * list (response Qc) :=
  ([noon20; noon20; noon20], [Page [c16]; Page []; Failure "BadSymbol"]).

Definition main_failing : session Qc _ unit :=
  main _ script_clock script_fetch utc_epoch_ms 5 ui_two failing_token.

(** The whole function over the script of three pages. *)
Definition run_two_pages : ran Qc _ (option (Qc * list (row Qc))) :=
  get_twap_last_5_business_days _ script_clock script_fetch
    utc_epoch_ms 5 "X/USDT" "1d" 5 two_pages.

(** The book's candles with other opens and volumes. *)
Definition c16' : candle Qc :=
  mkCandle (noon_ms 16) (Q2Qc 1) (Q2Qc 10) (Q2Qc 10) (Q2Qc 10) (Q2Qc 7).
Definition c17' : candle Qc :=
  mkCandle (noon_ms 17) (Q2Qc 2) (Q2Qc 20) (Q2Qc 20) (Q2Qc 20) (Q2Qc 8).

(** ** The run in binary64

    The rows a run hands to the mean: the fetched rows dated on or after
    the cutoff. *)
Definition window_rows {R : Type} (tr : list (event R)) (days : Z)
    : list (candle R) :=
  filter (keep (today_of tr - days)) (fetched tr).

(** Candles as a float64 frame holds them: typical prices 10, 20 and 30,
    and a candle whose high is missing. *)
Definition f16 : candle float := flat (noon_ms 16) 10%float.
Definition f17 : candle float := flat (noon_ms 17) 20%float.
Definition f18 : candle float := flat (noon_ms 18) 30%float.

Definition f_gap : candle float :=
  mkCandle (noon_ms 17) 20%float nan 20%float 20%float 1%float.

Definition float_pages : list Z * list (response float) :=
  ([noon20; noon20], [Page [f16; f17; f18]; Page []]).

Definition gap_pages : list Z * list (response float) :=
  ([noon20; noon20], [Page [f16; f_gap; f18]; Page []]).

Definition run_float : ran float _ (option (float * list (row float))) :=
  get_twap_last_5_business_days _ script_clock script_fetch
    utc_epoch_ms 5 "X/USDT" "1d" 5 float_pages.

Definition run_gap : ran float _ (option (float * list (row float))) :=
  get_twap_last_5_business_days _ script_clock script_fetch
    utc_epoch_ms 5 "X/USDT" "1d" 5 gap_pages.

(** Eight typical prices, the first far larger than the rest. *)
Definition eight_prices : list float :=
  [1e16; 1; 1; 1; 1; 1; 1; 1]%float.

(** A flat candle priced at the binary64 number nearest to one tenth. *)
Definition tenth : candle float := flat (noon_ms 18) 0x1.999999999999ap-4%float.

(** ** The epoch conversion in binary64

    [int(x)] of a float: truncation toward zero (the readings of a clock
    are finite). *)
Definition int_of_float (x : float) : Z :=
  match Prim2SF x with
  | S754_finite s m e =>
      let v := if 0 <=? e then Z.pos m * 2 ^ e else Z.pos m / 2 ^ (- e) in
      if s then - v else v
  | _ => 0
  end.

Definition float_of_Z (z : Z) : float :=
  match z with
  | Z0 => PrimFloat.zero
  | Zpos p => float_of_pos p
  | Zneg p => PrimFloat.opp (float_of_pos p)
  end.

(** [int(dt.timestamp() * 1000)] in a process whose zone is UTC: the
    whole seconds plus [microsecond / 1e6], times a thousand, truncated. *)
Definition float_epoch_ms (t : Z) : Z :=
  let seconds := t / 1000000 in
  let microsecond := t mod 1000000 in
  let posix := PrimFloat.add (float_of_Z seconds)
                 (PrimFloat.div (float_of_Z microsecond) 1e6%float) in
  int_of_float (PrimFloat.mul posix 1000%float).

(** ** Facts about lists of timestamps *)

Lemma ascending_cons (a : Z) (l : list Z) :
  ascending (a :: l) = true ->
  ascending l = true /\ Forall (fun b => a < b) l.
Proof.
  revert a; induction l as [|b l IH]; intros a Hasc.
  - split; [reflexivity | constructor].
  - cbn [ascending] in Hasc. apply andb_true_iff in Hasc as [Hab Hl].
    apply Z.ltb_lt in Hab. split; [exact Hl|].
    constructor; [exact Hab|].
    destruct (IH b Hl) as [_ Hall].
    eapply Forall_impl; [|exact Hall]. cbn; intros; lia.
Qed.

Lemma ascending_sorted (l : list Z) :
  ascending l = true -> StronglySorted Z.lt l.
Proof.
  induction l as [|a l IH]; intros Hasc; [constructor|].
  destruct (ascending_cons _ _ Hasc) as [Hl Hall].
  constructor; auto.
Qed.

Lemma sorted_app (l1 l2 : list Z) :
  StronglySorted Z.lt l1 -> StronglySorted Z.lt l2 ->
  (forall a b, In a l1 -> In b l2 -> a < b) ->
  StronglySorted Z.lt (l1 ++ l2).
Proof.
  induction l1 as [|a l1 IH]; intros H1 H2 Hlt; [exact H2|].
  inversion H1 as [|? ? Hs Ha]; subst. cbn. constructor.
  - apply IH; auto. intros; apply Hlt; [right|]; assumption.
  - apply Forall_app; split; [exact Ha|].
    apply Forall_forall; intros b Hb. apply Hlt; [left; reflexivity|exact Hb].
Qed.

Lemma sorted_nodup (l : list Z) : StronglySorted Z.lt l -> NoDup l.
Proof.
  induction 1 as [|a l Hs IH Ha]; constructor; auto.
  intros Hin. rewrite Forall_forall in Ha. specialize (Ha a Hin). lia.
Qed.

Lemma last_cons_default {A : Type} (l : list A) (a b : A) :
  last (b :: l) a = last l b.
Proof.
  revert a b; induction l as [|x l IH]; intros a b; [reflexivity|].
  change (last (b :: x :: l) a) with (last (x :: l) a).
  rewrite (IH a x), (IH b x). reflexivity.
Qed.

(** The last element of a strictly ascending list bounds the others. *)
Lemma ascending_last (l : list Z) (a : Z) :
  ascending (a :: l) = true ->
  a <= last l a /\ Forall (fun b => b <= last l a) l.
Proof.
  revert a; induction l as [|b l IH]; intros a Hasc.
  - cbn. split; [lia|constructor].
  - destruct (ascending_cons _ _ Hasc) as [Hl Hall].
    destruct (IH b Hl) as [Hb Hrest].
    rewrite (last_cons_default l a b). inversion Hall; subst. split; [lia|].
    constructor; [exact Hb|exact Hrest].
Qed.

Lemma last_map {A B : Type} (f : A -> B) (l : list A) (a : A) :
  last (map f l) (f a) = f (last l a).
Proof.
  induction l as [|x l IH]; [reflexivity|].
  destruct l as [|y l]; [reflexivity|].
  change (last (map f (x :: y :: l)) (f a)) with (last (map f (y :: l)) (f a)).
  rewrite IH. reflexivity.
Qed.

Lemma last_in_or_default {A : Type} (l : list A) (a : A) :
  last l a = a \/ In (last l a) l.
Proof.
  induction l as [|x l IH]; [left; reflexivity|].
  destruct l as [|y l]; [right; left; reflexivity|].
  change (last (x :: y :: l) a) with (last (y :: l) a).
  destruct IH as [IH|IH]; [left; exact IH|right; right; exact IH].
Qed.

(** ** The fetch loop *)

Section LoopFacts.

Context {R : Type}.
Variable W : Type.
Variable fetch_ohlcv : string -> string -> Z -> Z -> W -> response R * W.
Variables symbol timeframe : string.
Variable now_ms : Z.

Local Abbreviation loop fuel :=
  (fetch_loop W fetch_ohlcv fuel symbol timeframe now_ms).

Lemma fetch_loop_S (fuel : nat) (since : Z) (ohlcv : list (candle R)) (w : W) :
  loop (S fuel) since ohlcv w =
  let (batch, w1) := fetch_ohlcv symbol timeframe since limit w in
  match batch with
  | Failure e => mkRan (Raise e) [Fetched since batch] w1
  | Page [] => mkRan (Return ohlcv) [Fetched since batch] w1
  | Page (c :: rest) =>
    if timestamp (last rest c) >? now_ms
    then mkRan (Return (ohlcv ++ c :: rest)) [Fetched since batch] w1
    else
      let r := loop fuel (timestamp (last rest c) + 1) (ohlcv ++ c :: rest) w1 in
      mkRan (out r) (Fetched since batch :: trace r) (final r)
  end.
Proof. reflexivity. Qed.

(** A page that starts at the cursor and ascends ends at or after the
    cursor, and all of it lies at or before its end. *)
Lemma page_bounds (s : Z) (c : candle R) (rest : list (candle R)) :
  ascending (map timestamp (c :: rest)) = true ->
  forallb (fun c => s <=? timestamp c) (c :: rest) = true ->
  Forall (fun t => s <= t <= timestamp (last rest c))
         (map timestamp (c :: rest)).
Proof.
  intros Hasc Hge.
  change (map timestamp (c :: rest))
    with (timestamp c :: map timestamp rest) in Hasc.
  destruct (ascending_last _ _ Hasc) as [Hc Hrest].
  rewrite last_map in Hc, Hrest.
  rewrite forallb_forall in Hge.
  apply Forall_forall. intros t Ht.
  apply in_map_iff in Ht as [x [<- Hx]].
  specialize (Hge x Hx). apply Z.leb_le in Hge. split; [exact Hge|].
  destruct Hx as [<-|Hx]; [exact Hc|].
  rewrite Forall_forall in Hrest. apply Hrest. apply in_map. exact Hx.
Qed.

Lemma page_last_from_since (s : Z) (c : candle R) (rest : list (candle R)) :
  forallb (fun c => s <=? timestamp c) (c :: rest) = true ->
  s <= timestamp (last rest c).
Proof.
  intros Hge. rewrite forallb_forall in Hge.
  assert (Hin : In (last rest c) (c :: rest)).
  { destruct (last_in_or_default rest c) as [->|Hin]; [left|right]; auto. }
  apply Z.leb_le. apply (Hge _ Hin).
Qed.

(** The invariant of the loop: what has been gathered is in strict time
    order and lies wholly before the cursor. *)
Lemma fetch_loop_ascending (fuel : nat) :
  forall (since : Z) (ohlcv : list (candle R)) (w : W),
  forallb page_ok (trace (loop fuel since ohlcv w)) = true ->
  StronglySorted Z.lt (map timestamp ohlcv) ->
  Forall (fun t => t < since) (map timestamp ohlcv) ->
  StronglySorted Z.lt (cursors (trace (loop fuel since ohlcv w))) /\
  Forall (fun s => since <= s) (cursors (trace (loop fuel since ohlcv w))) /\
  cursor_follows (trace (loop fuel since ohlcv w)) = true /\
  forall res, out (loop fuel since ohlcv w) = Return res ->
    res = ohlcv ++ concat (batches (trace (loop fuel since ohlcv w))) /\
    StronglySorted Z.lt (map timestamp res).
Proof.
  induction fuel as [|fuel IH]; intros since ohlcv w Hok Hsorted Hbefore.
  - cbn. split; [constructor|split; [constructor|split; [reflexivity|]]].
    intros res Hres; discriminate.
  - rewrite fetch_loop_S in *.
    destruct (fetch_ohlcv symbol timeframe since limit w) as [batch w1].
    destruct batch as [[|c rest]|e].
    + cbn in *.
      split; [repeat constructor|split; [|split; [reflexivity|]]].
      { constructor; [lia|constructor]. }
      intros res Hres. injection Hres as <-. rewrite app_nil_r.
      split; [reflexivity|exact Hsorted].
    + assert (Hgrow :
        page_ok (Fetched since (Page (c :: rest))) = true ->
        StronglySorted Z.lt (map timestamp (ohlcv ++ c :: rest)) /\
        Forall (fun t => t < timestamp (last rest c) + 1)
               (map timestamp (ohlcv ++ c :: rest)) /\
        since <= timestamp (last rest c)).
      { intros Hp. cbn [page_ok] in Hp.
        apply andb_true_iff in Hp as [Hasc Hge].
        pose proof (page_bounds since c rest Hasc Hge) as Hb.
        rewrite map_app. split; [|split].
        - apply sorted_app; [exact Hsorted|apply ascending_sorted; exact Hasc|].
          intros a b Ha Hb'. rewrite Forall_forall in Hbefore, Hb.
          specialize (Hbefore a Ha). specialize (Hb b Hb'). lia.
        - apply Forall_app; split.
          + eapply Forall_impl; [|exact Hbefore]. cbn.
            intros a Ha. inversion Hb; subst. lia.
          + eapply Forall_impl; [|exact Hb]. cbn. intros; lia.
        - inversion Hb; subst. lia. }
      destruct (timestamp (last rest c) >? now_ms) eqn:Hpast.
      * cbn [out trace cursors batches concat cursor_follows forallb] in *.
        rewrite andb_true_r in Hok.
        destruct (Hgrow Hok) as [Hs [_ Hle]].
        split; [repeat constructor|split; [|split; [reflexivity|]]].
        { constructor; [lia|constructor]. }
        intros res Hres. injection Hres as <-. rewrite app_nil_r.
        split; [reflexivity|exact Hs].
      * cbn [out trace final] in *.
        set (r := loop fuel (timestamp (last rest c) + 1)
                    (ohlcv ++ c :: rest) w1) in *.
        change (forallb page_ok (Fetched since (Page (c :: rest)) :: trace r))
          with (page_ok (Fetched since (Page (c :: rest)))
                && forallb page_ok (trace r)) in Hok.
        apply andb_true_iff in Hok as [Hp Hrest].
        destruct (Hgrow Hp) as [Hs [Hlt Hle]].
        destruct (IH _ _ _ Hrest Hs Hlt) as [Hcur [Hfrom [Hfol Hres]]].
        fold r in Hcur, Hfrom, Hfol, Hres.
        cbn [cursors batches concat].
        split; [|split; [|split]].
        -- constructor; [exact Hcur|].
           eapply Forall_impl; [|exact Hfrom]. cbn. intros; lia.
        -- constructor; [lia|].
           eapply Forall_impl; [|exact Hfrom]. cbn. intros; lia.
        -- destruct (trace r) as [|[t|s' r'] tl] eqn:Htr;
             [reflexivity| |].
           ++ exfalso. subst r. destruct fuel as [|fuel']; [discriminate Htr|].
              rewrite fetch_loop_S in Htr.
              destruct (fetch_ohlcv symbol timeframe
                          (timestamp (last rest c) + 1) limit w1) as [b2 w2].
              destruct b2 as [[|c2 rest2]|e2]; cbn in Htr;
                try discriminate Htr.
              destruct (timestamp (last rest2 c2) >? now_ms); cbn in Htr;
                discriminate Htr.
           ++ change (cursor_follows
                        (Fetched since (Page (c :: rest)) :: Fetched s' r' :: tl))
                with ((s' =? timestamp (last rest c) + 1)
                      && cursor_follows (Fetched s' r' :: tl)).
              rewrite Hfol, andb_true_r. apply Z.eqb_eq.
              subst r. destruct fuel as [|fuel']; [discriminate Htr|].
              rewrite fetch_loop_S in Htr.
              destruct (fetch_ohlcv symbol timeframe
                          (timestamp (last rest c) + 1) limit w1) as [b2 w2].
              destruct b2 as [[|c2 rest2]|e2]; cbn in Htr;
                try (injection Htr as <- _ _; reflexivity).
              destruct (timestamp (last rest2 c2) >? now_ms); cbn in Htr;
                injection Htr as <- _ _; reflexivity.
        -- intros res Hr. destruct (Hres _ Hr) as [-> Hfin].
           rewrite <- app_assoc in *. split; [reflexivity|exact Hfin].
    + cbn in *.
      split; [repeat constructor|split; [|split; [reflexivity|]]].
      { constructor; [lia|constructor]. }
      intros res Hres; discriminate.
Qed.

(** C1.  When every page the exchange returned was in strict time order
    and began no earlier than the cursor it was asked for, the cursors of
    the successive requests strictly increase, each being the last
    timestamp of the page before plus one, and the series the loop hands
    on is the concatenation of the pages, strictly ascending in time and
    free of duplicate timestamps. *)
Theorem fetch_loop_cursor_and_series_ascend
    (fuel : nat) (since : Z) (w : W) :
  forallb page_ok (trace (loop fuel since [] w)) = true ->
  StronglySorted Z.lt (cursors (trace (loop fuel since [] w))) /\
  cursor_follows (trace (loop fuel since [] w)) = true /\
  forall ohlcv, out (loop fuel since [] w) = Return ohlcv ->
    ohlcv = concat (batches (trace (loop fuel since [] w))) /\
    StronglySorted Z.lt (map timestamp ohlcv) /\
    NoDup (map timestamp ohlcv).
Proof.
  intros Hok.
  destruct (fetch_loop_ascending fuel since [] w Hok)
    as [Hcur [_ [Hfol Hres]]]; [constructor|constructor|].
  split; [exact Hcur|split; [exact Hfol|]].
  intros ohlcv Hout. destruct (Hres _ Hout) as [Heq Hs].
  split; [exact Heq|split; [exact Hs|apply sorted_nodup; exact Hs]].
Qed.

(** Each page that lets the loop go on moves the cursor up by at least
    one and leaves it at or below [now_ms + 1]: fuel for the distance to
    [now_ms] is never used up. *)
Lemma fetch_loop_not_dry (fuel : nat) :
  forall (since : Z) (ohlcv : list (candle R)) (w : W),
  honours_since W fetch_ohlcv symbol timeframe ->
  (Z.to_nat (now_ms - since + 1) < fuel)%nat ->
  out (loop fuel since ohlcv w) <> OutOfFuel.
Proof.
  induction fuel as [|fuel IH]; intros since ohlcv w Hon Hfuel; [lia|].
  rewrite fetch_loop_S.
  destruct (fetch_ohlcv symbol timeframe since limit w) as [batch w1] eqn:Hf.
  destruct batch as [[|c rest]|e]; [discriminate| |discriminate].
  pose proof (page_last_from_since _ _ _ (Hon _ _ _ _ Hf)) as Hle.
  destruct (timestamp (last rest c) >? now_ms) eqn:Hpast; [discriminate|].
  rewrite Z.gtb_ltb in Hpast. apply Z.ltb_ge in Hpast.
  cbn [out]. apply IH; [exact Hon|lia].
Qed.

(** C2.  Against an exchange that never answers with a candle from before
    the cursor, the loop ends within [now_ms - since + 2] page requests
    (one, when the range is empty): with that much fuel it does not run
    dry, and the response that ended it is an empty page, a page whose last
    timestamp is past [now_ms], or a failure, none of the earlier ones
    being such. *)
Theorem fetch_loop_terminates (fuel : nat) :
  forall (since : Z) (ohlcv : list (candle R)) (w : W),
  honours_since W fetch_ohlcv symbol timeframe ->
  (Z.to_nat (now_ms - since + 1) < fuel)%nat ->
  out (loop fuel since ohlcv w) <> OutOfFuel /\
  (length (trace (loop fuel since ohlcv w))
     <= Z.to_nat (now_ms - since + 1) + 1)%nat /\
  stops_at_end now_ms (responses (trace (loop fuel since ohlcv w))) = true.
Proof.
  induction fuel as [|fuel IH]; intros since ohlcv w Hon Hfuel; [lia|].
  rewrite fetch_loop_S.
  destruct (fetch_ohlcv symbol timeframe since limit w) as [batch w1] eqn:Hf.
  destruct batch as [[|c rest]|e].
  - cbn. split; [discriminate|split; [lia|reflexivity]].
  - pose proof (page_last_from_since _ _ _ (Hon _ _ _ _ Hf)) as Hle.
    destruct (timestamp (last rest c) >? now_ms) eqn:Hpast.
    + cbn. rewrite Hpast. split; [discriminate|split; [lia|reflexivity]].
    + rewrite Z.gtb_ltb in Hpast. apply Z.ltb_ge in Hpast.
      destruct (IH (timestamp (last rest c) + 1) (ohlcv ++ c :: rest) w1 Hon)
        as [Hout [Hlen Hend]]; [lia|].
      cbn [out trace responses length].
      split; [exact Hout|split; [lia|]].
      destruct (responses (trace (loop fuel (timestamp (last rest c) + 1)
                                    (ohlcv ++ c :: rest) w1)))
        as [|r tl]; [discriminate Hend|].
      change (negb (stops now_ms (Page (c :: rest)))
              && stops_at_end now_ms (r :: tl) = true).
      rewrite Hend, andb_true_r. cbn.
      destruct (timestamp (last rest c) >? now_ms) eqn:Hgt; [|reflexivity].
      rewrite Z.gtb_ltb in Hgt. apply Z.ltb_lt in Hgt. lia.
  - cbn. split; [discriminate|split; [lia|reflexivity]].
Qed.

(** A failed request ends the loop on the spot, with that failure. *)
Lemma fetch_loop_failure (fuel : nat) :
  forall (since : Z) (ohlcv : list (candle R)) (w : W) (s : Z) (e : string),
  In (Fetched s (Failure e)) (trace (loop fuel since ohlcv w)) ->
  out (loop fuel since ohlcv w) = Raise e /\
  exists front,
    trace (loop fuel since ohlcv w) = front ++ [Fetched s (Failure e)] /\
    forallb (fun ev => negb (is_failure ev)) front = true.
Proof.
  induction fuel as [|fuel IH]; intros since ohlcv w s e Hin; [destruct Hin|].
  rewrite fetch_loop_S in *.
  destruct (fetch_ohlcv symbol timeframe since limit w) as [batch w1].
  destruct batch as [[|c rest]|e'].
  - cbn in Hin. destruct Hin as [Hin|[]]. discriminate Hin.
  - destruct (timestamp (last rest c) >? now_ms).
    + cbn in Hin. destruct Hin as [Hin|[]]. discriminate Hin.
    + cbn [out trace] in *. destruct Hin as [Hin|Hin]; [discriminate Hin|].
      destruct (IH _ _ _ _ _ Hin) as [Hout [front [Htr Hnf]]].
      split; [exact Hout|].
      exists (Fetched since (Page (c :: rest)) :: front).
      rewrite Htr. split; [reflexivity|exact Hnf].
  - cbn in Hin. destruct Hin as [Hin|[]]. injection Hin as <- <-.
    cbn. split; [reflexivity|]. exists []. split; reflexivity.
Qed.

Lemma fetch_loop_collect (fuel : nat) :
  forall (since : Z) (ohlcv : list (candle R)) (w : W),
  out (loop fuel since ohlcv w) = OutOfFuel \/
  out (loop fuel since ohlcv w)
    = collect ohlcv (responses (trace (loop fuel since ohlcv w))).
Proof.
  induction fuel as [|fuel IH]; intros since ohlcv w; [left; reflexivity|].
  rewrite fetch_loop_S.
  destruct (fetch_ohlcv symbol timeframe since limit w) as [batch w1].
  destruct batch as [[|c rest]|e].
  - right. cbn. rewrite app_nil_r. reflexivity.
  - destruct (timestamp (last rest c) >? now_ms).
    + right. reflexivity.
    + cbn [out trace responses collect]. apply IH.
  - right. reflexivity.
Qed.

(** The loop's trace holds page requests only. *)
Lemma fetch_loop_no_clock (fuel : nat) :
  forall (since : Z) (ohlcv : list (candle R)) (w : W),
  clock_reads (trace (loop fuel since ohlcv w)) = [].
Proof.
  induction fuel as [|fuel IH]; intros since ohlcv w; [reflexivity|].
  rewrite fetch_loop_S.
  destruct (fetch_ohlcv symbol timeframe since limit w) as [batch w1].
  destruct batch as [[|c rest]|e]; try reflexivity.
  destruct (timestamp (last rest c) >? now_ms); [reflexivity|].
  cbn [trace clock_reads]. apply IH.
Qed.

End LoopFacts.

(** ** Traces *)

Section TraceFacts.

Context {R : Type}.

Lemma responses_app (t1 t2 : list (event R)) :
  responses (t1 ++ t2) = responses t1 ++ responses t2.
Proof.
  induction t1 as [|[t|s r] tl IH]; cbn; [reflexivity|exact IH|].
  rewrite IH. reflexivity.
Qed.

Lemma clock_reads_app (t1 t2 : list (event R)) :
  clock_reads (t1 ++ t2) = clock_reads t1 ++ clock_reads t2.
Proof.
  induction t1 as [|[t|s r] tl IH]; cbn; [reflexivity| |exact IH].
  rewrite IH. reflexivity.
Qed.

Lemma batches_app (t1 t2 : list (event R)) :
  batches (t1 ++ t2) = batches t1 ++ batches t2.
Proof.
  induction t1 as [|[t|s [b|e]] tl IH]; cbn; try exact IH; [reflexivity|].
  rewrite IH. reflexivity.
Qed.

(** Replaying responses without a failure appends the pages. *)
Lemma collect_return (tr : list (event R)) :
  forall (ohlcv res : list (candle R)),
  collect ohlcv (responses tr) = Return res ->
  res = ohlcv ++ concat (batches tr) /\
  forallb (fun ev => negb (is_failure ev)) tr = true.
Proof.
  induction tr as [|[t|s [b|e]] tl IH]; intros ohlcv res Hc; cbn in *.
  - injection Hc as <-. rewrite app_nil_r. split; reflexivity.
  - apply IH; exact Hc.
  - destruct (IH _ _ Hc) as [-> Hnf].
    rewrite <- app_assoc. split; [reflexivity|exact Hnf].
  - discriminate Hc.
Qed.

Lemma collect_raise (tr : list (event R)) :
  forall (ohlcv : list (candle R)) (e : string),
  collect ohlcv (responses tr) = Raise e ->
  exists s, In (Fetched s (Failure e)) tr.
Proof.
  induction tr as [|[t|s [b|e']] tl IH]; intros ohlcv e Hc; cbn in *.
  - discriminate Hc.
  - destruct (IH _ _ Hc) as [s Hs]. exists s. right; exact Hs.
  - destruct (IH _ _ Hc) as [s' Hs]. exists s'. right; exact Hs.
  - injection Hc as <-. exists s. left; reflexivity.
Qed.

(** With no failure among them, responses replay to a return. *)
Lemma collect_no_failure (tr : list (event R)) :
  forall (ohlcv : list (candle R)),
  forallb (fun ev => negb (is_failure ev)) tr = true ->
  collect ohlcv (responses tr) = Return (ohlcv ++ concat (batches tr)).
Proof.
  induction tr as [|[t|s [b|e]] tl IH]; intros ohlcv Hnf; cbn in *.
  - rewrite app_nil_r. reflexivity.
  - apply IH; exact Hnf.
  - rewrite (IH _ Hnf), <- app_assoc. reflexivity.
  - discriminate Hnf.
Qed.

End TraceFacts.

(** ** The whole function *)

Section RunFacts.

Context {R : Type} `{PriceArith R}.
Variable W : Type.
Variable utcnow : W -> Z * W.
Variable fetch_ohlcv : string -> string -> Z -> Z -> W -> response R * W.
Variable epoch_ms : Z -> Z.

Local Abbreviation run :=
  (get_twap_last_5_business_days W utcnow fetch_ohlcv epoch_ms).

(** The result is a function of what the run observed. *)
Lemma get_twap_replay (fuel : nat) (symbol timeframe : string)
    (days_to_fetch : Z) (w : W) :
  out (run fuel symbol timeframe days_to_fetch w) = OutOfFuel \/
  out (run fuel symbol timeframe days_to_fetch w)
    = replay days_to_fetch
        (responses (trace (run fuel symbol timeframe days_to_fetch w)))
        (clock_reads (trace (run fuel symbol timeframe days_to_fetch w))).
Proof.
  unfold get_twap_last_5_business_days, replay.
  destruct (utcnow w) as [end_time w1].
  set (since := epoch_ms (end_time - days_to_fetch * day_us)).
  set (now_ms := epoch_ms end_time).
  destruct (fetch_loop_collect W fetch_ohlcv symbol timeframe now_ms
              fuel since [] w1) as [Hout|Hout].
  - left. rewrite Hout. reflexivity.
  - pose proof (fetch_loop_no_clock W fetch_ohlcv symbol timeframe now_ms
                  fuel since [] w1) as Hnc.
    set (lp := fetch_loop W fetch_ohlcv fuel symbol timeframe now_ms
                 since [] w1) in *.
    destruct (out lp) as [ohlcv|e|] eqn:Hlp.
    + destruct (utcnow (final lp)) as [now2 w2].
      right. cbn [out trace responses clock_reads].
      rewrite responses_app, clock_reads_app, Hnc. cbn [responses clock_reads].
      rewrite app_nil_r, <- Hout. reflexivity.
    + right. cbn [out trace responses clock_reads].
      rewrite <- Hout. reflexivity.
    + left. reflexivity.
Qed.

(** A returned result is the aggregate of the rows fetched, in the window
    that ends at the date of the last clock reading. *)
Lemma get_twap_returns (fuel : nat) (symbol timeframe : string)
    (days_to_fetch : Z) (w : W) (res : option (R * list (row R))) :
  out (run fuel symbol timeframe days_to_fetch w) = Return res ->
  res = aggregate
          (fetched (trace (run fuel symbol timeframe days_to_fetch w)))
          (today_of (trace (run fuel symbol timeframe days_to_fetch w)))
          days_to_fetch.
Proof.
  intros Hout.
  destruct (get_twap_replay fuel symbol timeframe days_to_fetch w)
    as [Hdry|Hrep]; [congruence|].
  rewrite Hout in Hrep. unfold replay in Hrep.
  destruct (collect [] (responses _)) as [ohlcv|e|] eqn:Hc;
    try discriminate Hrep.
  injection Hrep as ->.
  destruct (collect_return _ _ _ Hc) as [-> _]. reflexivity.
Qed.

(** With fuel for the range between the two bounds, the whole function
    finishes against an exchange that serves nothing from before the
    cursor. *)
Lemma get_twap_finishes (fuel : nat) (symbol timeframe : string)
    (days_to_fetch : Z) (w : W) :
  honours_since W fetch_ohlcv symbol timeframe ->
  (Z.to_nat (epoch_ms (fst (utcnow w))
             - epoch_ms (fst (utcnow w) - days_to_fetch * day_us) + 1)
     < fuel)%nat ->
  out (run fuel symbol timeframe days_to_fetch w) <> OutOfFuel.
Proof.
  intros Hon Hfuel. unfold get_twap_last_5_business_days.
  destruct (utcnow w) as [end_time w1]. cbn [fst] in Hfuel.
  pose proof (fetch_loop_not_dry W fetch_ohlcv symbol timeframe
                (epoch_ms end_time) fuel
                (epoch_ms (end_time - days_to_fetch * day_us)) [] w1 Hon Hfuel)
    as Hout.
  destruct (out (fetch_loop _ _ _ _ _ _ _ _ _)) as [ohlcv|e|];
    [|discriminate|contradiction].
  destruct (utcnow (final _)) as [now2 w2]. discriminate.
Qed.

(** C4.  A run that finished with no failed request and whose date filter
    keeps no row, the case of an exchange that returned no candle at all
    included, returns the absent result; the mean is not taken. *)
Theorem no_data_returns_none (fuel : nat) (symbol timeframe : string)
    (days_to_fetch : Z) (w : W) :
  out (run fuel symbol timeframe days_to_fetch w) <> OutOfFuel ->
  forallb (fun ev => negb (is_failure ev))
          (trace (run fuel symbol timeframe days_to_fetch w)) = true ->
  filter (keep (today_of (trace (run fuel symbol timeframe days_to_fetch w))
                - days_to_fetch))
         (fetched (trace (run fuel symbol timeframe days_to_fetch w))) = [] ->
  out (run fuel symbol timeframe days_to_fetch w) = Return None.
Proof.
  intros Hfuel Hnf Hempty.
  destruct (get_twap_replay fuel symbol timeframe days_to_fetch w)
    as [Hdry|Hrep]; [contradiction|].
  rewrite Hrep. unfold replay.
  rewrite (collect_no_failure _ [] Hnf). cbn [app].
  unfold aggregate. fold (today_of (trace (run fuel symbol timeframe
                                              days_to_fetch w))).
  fold (fetched (trace (run fuel symbol timeframe days_to_fetch w))).
  rewrite Hempty. reflexivity.
Qed.

(** C5.  When a page request fails, the function raises that very error:
    the failed request is the last thing the run did (no retry, no second
    clock reading, no frame built), no earlier request had failed, and
    nothing is returned. *)
Theorem failure_propagates (fuel : nat) (symbol timeframe : string)
    (days_to_fetch : Z) (w : W) (s : Z) (e : string) :
  In (Fetched s (Failure e))
     (trace (run fuel symbol timeframe days_to_fetch w)) ->
  out (run fuel symbol timeframe days_to_fetch w) = Raise e /\
  exists front,
    trace (run fuel symbol timeframe days_to_fetch w)
      = front ++ [Fetched s (Failure e)] /\
    forallb (fun ev => negb (is_failure ev)) front = true.
Proof.
  unfold get_twap_last_5_business_days.
  destruct (utcnow w) as [end_time w1].
  set (since := epoch_ms (end_time - days_to_fetch * day_us)).
  set (now_ms := epoch_ms end_time).
  pose proof (fetch_loop_failure W fetch_ohlcv symbol timeframe now_ms
                fuel since [] w1 s e) as Hloop.
  set (lp := fetch_loop W fetch_ohlcv fuel symbol timeframe now_ms
               since [] w1) in *.
  intros Hin.
  assert (Hin' : In (Fetched s (Failure e)) (trace lp)).
  { destruct (out lp) as [ohlcv|e'|].
    - destruct (utcnow (final lp)) as [now2 w2]. cbn [trace] in Hin.
      destruct Hin as [Hin|Hin]; [discriminate Hin|].
      apply in_app_or in Hin as [Hin|[Hin|[]]];
        [exact Hin|discriminate Hin].
    - cbn [trace] in Hin. destruct Hin as [Hin|Hin];
        [discriminate Hin|exact Hin].
    - cbn [trace] in Hin. destruct Hin as [Hin|Hin];
        [discriminate Hin|exact Hin]. }
  destruct (Hloop Hin') as [Hout [front [Htr Hnf]]].
  rewrite Hout. cbn [out trace]. split; [reflexivity|].
  exists (ClockRead end_time :: front). rewrite Htr.
  split; [reflexivity|exact Hnf].
Qed.

(** C6.  The cutoff is the date of the clock reading taken after the
    fetch, less [days_to_fetch] days counted on the calendar (every day
    counts, whatever its weekday), and the rows of the result are exactly
    the fetched rows dated on or after it, in their order. *)
Theorem window_is_calendar_days (fuel : nat) (symbol timeframe : string)
    (days_to_fetch : Z) (w : W) (res : option (R * list (row R))) :
  out (run fuel symbol timeframe days_to_fetch w) = Return res ->
  let tr := trace (run fuel symbol timeframe days_to_fetch w) in
  let cutoff := last (clock_reads tr) 0 / day_us - days_to_fetch in
  kept res
    = filter (fun c => cutoff <=? timestamp c / day_ms) (fetched tr) /\
  forall c, In c (kept res) <->
            In c (fetched tr) /\ cutoff <= timestamp c / day_ms.
Proof.
  intros Hout tr cutoff.
  pose proof (get_twap_returns _ _ _ _ _ _ Hout) as Hres. fold tr in Hres.
  assert (Hkept : kept res
            = filter (fun c => cutoff <=? timestamp c / day_ms) (fetched tr)).
  { rewrite Hres. unfold aggregate, today_of, date_of_us. fold cutoff.
    change (keep cutoff) with (fun c : candle R => cutoff <=? timestamp c / day_ms).
    destruct (filter _ (fetched tr)) as [|c l]; [reflexivity|].
    cbn [kept]. rewrite map_map. cbn [bar with_typical].
    rewrite map_id. reflexivity. }
  split; [exact Hkept|].
  intros c. rewrite Hkept, filter_In, Z.leb_le. reflexivity.
Qed.

(** C7, as the code has it.  A run that reaches the mean hands it a series
    that is not empty and whose every candle is dated on or after the
    cutoff date, today less [days_to_fetch] days. *)
Theorem series_for_mean_nonempty_from_cutoff
    (fuel : nat) (symbol timeframe : string) (days_to_fetch : Z) (w : W)
    (twap : R) (df : list (row R)) :
  out (run fuel symbol timeframe days_to_fetch w)
    = Return (Some (twap, df)) ->
  df <> [] /\
  Forall (fun rw =>
            today_of (trace (run fuel symbol timeframe days_to_fetch w))
              - days_to_fetch <= date_of_ms (timestamp (bar rw))) df.
Proof.
  intros Hout.
  pose proof (get_twap_returns _ _ _ _ _ _ Hout) as Hres.
  unfold aggregate in Hres.
  set (cutoff := today_of _ - days_to_fetch) in *.
  destruct (filter (keep cutoff) (fetched _)) as [|c l] eqn:Hf;
    [discriminate Hres|].
  injection Hres as _ ->. split; [discriminate|].
  apply Forall_forall. intros rw Hrw.
  change (In rw (map with_typical (c :: l))) in Hrw.
  apply in_map_iff in Hrw as [x [<- Hx]]. cbn [bar with_typical].
  rewrite <- Hf in Hx. apply filter_In in Hx as [_ Hk].
  apply Z.leb_le in Hk. exact Hk.
Qed.

(** C9.  The frame returned is the filtered rows, each with its six
    columns as fetched and one more, [typical_price], holding
    (high + low + close) / 3 of that row. *)
Theorem result_frame_adds_typical_price
    (fuel : nat) (symbol timeframe : string) (days_to_fetch : Z) (w : W)
    (twap : R) (df : list (row R)) :
  out (run fuel symbol timeframe days_to_fetch w)
    = Return (Some (twap, df)) ->
  map bar df
    = filter (keep (today_of (trace (run fuel symbol timeframe
                                       days_to_fetch w)) - days_to_fetch))
             (fetched (trace (run fuel symbol timeframe days_to_fetch w))) /\
  Forall (fun rw =>
            typical_price rw
              = rdiv (radd (radd (high (bar rw)) (low (bar rw)))
                           (close (bar rw)))
                     (of_count 3)) df.
Proof.
  intros Hout.
  pose proof (get_twap_returns _ _ _ _ _ _ Hout) as Hres.
  unfold aggregate in Hres.
  set (cutoff := today_of _ - days_to_fetch) in *.
  destruct (filter (keep cutoff) (fetched _)) as [|c l] eqn:Hf;
    [discriminate Hres|].
  injection Hres as _ ->. split.
  - change (map bar (map with_typical (c :: l)) = c :: l).
    rewrite map_map. cbn [bar with_typical]. apply map_id.
  - apply Forall_forall. intros rw Hrw.
    change (In rw (map with_typical (c :: l))) in Hrw.
    apply in_map_iff in Hrw as [x [<- Hx]]. reflexivity.
Qed.

End RunFacts.

(** ** The aggregate *)

Section AggregateFacts.

Context {R : Type} `{PriceArith R}.

(** What [aggregate] returns when it returns a value. *)
Lemma aggregate_some (ohlcv : list (candle R)) (today days_to_fetch : Z)
    (twap : R) (df : list (row R)) :
  aggregate ohlcv today days_to_fetch = Some (twap, df) ->
  df = map with_typical (filter (keep (today - days_to_fetch)) ohlcv) /\
  twap = mean (map typical (filter (keep (today - days_to_fetch)) ohlcv)) /\
  filter (keep (today - days_to_fetch)) ohlcv <> [].
Proof.
  unfold aggregate.
  destruct (filter (keep (today - days_to_fetch)) ohlcv) as [|c l];
    [discriminate|].
  intros Hagg. injection Hagg as <- <-.
  split; [reflexivity|split; [|discriminate]].
  rewrite map_map. reflexivity.
Qed.

Lemma filter_permutation {A : Type} (f : A -> bool) (l1 l2 : list A) :
  Permutation l1 l2 -> Permutation (filter f l1) (filter f l2).
Proof.
  induction 1 as [|x l1 l2 Hp IH|x y l|l1 l2 l3 H12 IH12 H23 IH23]; cbn.
  - constructor.
  - destruct (f x); [constructor|]; exact IH.
  - destruct (f x), (f y); try apply Permutation_refl. constructor.
  - eapply Permutation_trans; eassumption.
Qed.

End AggregateFacts.

(** ** The sum and the mean *)

Section MeanFacts.

Context {R : Type} `{PriceArith R}.

Lemma pairwise_sum_eq (fuel : nat) (a : list R) :
  pairwise_sum fuel a =
  if (length a <? 8)%nat then fold_left radd a rzero
  else if (length a <=? 128)%nat then
    let (r, rest) := unrolled (length a / 8 - 1) (firstn 8 a) (skipn 8 a) in
    fold_left radd rest (combine8 r)
  else
    match fuel with
    | O => rzero
    | S fuel' =>
      radd (pairwise_sum fuel'
              (firstn (length a / 2 - (length a / 2) mod 8) a))
           (pairwise_sum fuel'
              (skipn (length a / 2 - (length a / 2) mod 8) a))
    end.
Proof. destruct fuel; reflexivity. Qed.

Lemma add_into_length (r chunk : list R) :
  length (add_into r chunk) = length r.
Proof.
  revert chunk; induction r as [|x r IH]; intros [|c chunk]; cbn; auto.
Qed.

Lemma unrolled_length (k : nat) :
  forall r a : list R, length (fst (unrolled k r a)) = length r.
Proof.
  induction k as [|k IH]; intros r a; [reflexivity|].
  cbn [unrolled]. rewrite IH. apply add_into_length.
Qed.

(** A column with nothing missing is summed as it is and counted in
    full. *)
Lemma nothing_missing (xs : list R) :
  forallb (fun x => negb (is_na x)) xs = true ->
  nan_to_zero xs = xs /\ count_present xs = length xs.
Proof.
  unfold nan_to_zero, count_present.
  induction xs as [|x xs IH]; intros Hall; [split; reflexivity|].
  cbn [forallb] in Hall. apply andb_true_iff in Hall as [Hx Hxs].
  destruct (IH Hxs) as [Hz Hc]. cbn [map filter]. rewrite Hx.
  apply negb_true_iff in Hx. rewrite Hx, Hz. cbn [length]. rewrite Hc.
  split; reflexivity.
Qed.

(** Reordering a column reorders what is summed and leaves the count. *)
Lemma nan_to_zero_permutation (xs ys : list R) :
  Permutation xs ys -> Permutation (nan_to_zero xs) (nan_to_zero ys).
Proof. apply Permutation_map. Qed.

Lemma count_present_permutation (xs ys : list R) :
  Permutation xs ys -> count_present xs = count_present ys.
Proof.
  intros Hp. unfold count_present.
  apply Permutation_length, filter_permutation, Hp.
Qed.

End MeanFacts.

(** ** Exact arithmetic *)

Section Exact.

Local Open Scope Qc_scope.

Local Abbreviation total xs := (fold_right Qcplus 0 xs).

Lemma sum_from (xs : list Qc) (a : Qc) :
  fold_left Qcplus xs a = a + total xs.
Proof.
  revert a; induction xs as [|x xs IH]; intros a; cbn [fold_left fold_right].
  - ring.
  - rewrite IH. ring.
Qed.

Lemma total_app (xs ys : list Qc) : total (xs ++ ys) = total xs + total ys.
Proof.
  induction xs as [|x xs IH]; cbn [app fold_right]; [ring|].
  rewrite IH. ring.
Qed.

Lemma total_split (n : nat) (xs : list Qc) :
  total (firstn n xs) + total (skipn n xs) = total xs.
Proof. rewrite <- total_app, firstn_skipn. reflexivity. Qed.

Lemma add_into_total (r chunk : list Qc) :
  total (add_into r chunk) = total r + total (firstn (length r) chunk).
Proof.
  revert chunk; induction r as [|x r IH]; intros [|c chunk];
    cbn [add_into fold_right length firstn]; try ring.
  rewrite IH. cbn [radd QcArith]. ring.
Qed.

Lemma unrolled_total (k : nat) :
  forall r a : list Qc,
  length r = 8%nat ->
  total (fst (unrolled k r a)) + total (snd (unrolled k r a))
    = total r + total a.
Proof.
  induction k as [|k IH]; intros r a Hr; [reflexivity|].
  cbn [unrolled]. rewrite IH by (rewrite add_into_length; exact Hr).
  rewrite add_into_total, Hr, firstn_firstn, Nat.min_id.
  rewrite <- (total_split 8 a). ring.
Qed.

Lemma combine8_total (r : list Qc) : length r = 8%nat -> combine8 r = total r.
Proof.
  intros Hr.
  do 8 (destruct r as [|? r]; [discriminate Hr|]).
  destruct r; [|discriminate Hr].
  cbn [combine8 fold_right radd QcArith]. ring.
Qed.

(** Added exactly, the pairwise order gives the plain total. *)
Lemma pairwise_total (fuel : nat) :
  forall a : list Qc, (length a <= fuel)%nat -> pairwise_sum fuel a = total a.
Proof.
  induction fuel as [|fuel IH]; intros a Hlen; rewrite pairwise_sum_eq.
  - destruct a; [|cbn in Hlen; lia]. reflexivity.
  - destruct (length a <? 8)%nat eqn:Hsmall.
    + cbn [radd rzero QcArith]. rewrite sum_from. ring.
    + apply Nat.ltb_ge in Hsmall.
      destruct (length a <=? 128)%nat eqn:Hblock.
      * pose proof (unrolled_total (length a / 8 - 1) (firstn 8 a) (skipn 8 a)
                      (firstn_length_le a Hsmall)) as Hsum.
        pose proof (unrolled_length (length a / 8 - 1) (firstn 8 a)
                      (skipn 8 a)) as Hr.
        rewrite (firstn_length_le a Hsmall) in Hr.
        destruct (unrolled _ _ _) as [r rest]. cbn [fst snd] in Hsum, Hr.
        cbn [radd QcArith]. rewrite sum_from, (combine8_total r Hr), Hsum.
        apply total_split.
      * apply Nat.leb_gt in Hblock.
        set (n2 := (length a / 2 - (length a / 2) mod 8)%nat).
        assert (Hn2 : (0 < n2 < length a)%nat).
        { subst n2.
          pose proof (Nat.div_mod_eq (length a) 2) as Hd.
          pose proof (Nat.mod_upper_bound (length a) 2 ltac:(lia)) as Hm.
          pose proof (Nat.mod_upper_bound (length a / 2) 8 ltac:(lia)) as Hm8.
          lia. }
        rewrite !IH.
        -- cbn [radd QcArith]. apply total_split.
        -- rewrite length_skipn. lia.
        -- rewrite length_firstn. lia.
Qed.

Lemma np_sum_total (a : list Qc) : np_sum a = total a.
Proof.
  unfold np_sum. rewrite pairwise_total by lia.
  cbn [radd rzero QcArith]. ring.
Qed.

(** Over exact prices the mean is the total over the number of entries. *)
Lemma mean_exact (xs : list Qc) :
  xs <> [] -> mean xs = total xs / of_count (length xs).
Proof.
  intros Hne.
  destruct (nothing_missing xs) as [Hz Hc].
  { clear. induction xs; [reflexivity|exact IHxs]. }
  unfold mean. rewrite Hz, Hc, np_sum_total.
  destruct xs as [|x xs]; [contradiction|]. reflexivity.
Qed.

Lemma sum_permutation (xs ys : list Qc) :
  Permutation xs ys -> total xs = total ys.
Proof.
  induction 1 as [|x l1 l2 Hp IH|x y l|l1 l2 l3 H12 IH12 H23 IH23];
    cbn [fold_right].
  - reflexivity.
  - rewrite IH. reflexivity.
  - ring.
  - congruence.
Qed.

Lemma mean_permutation (xs ys : list Qc) :
  Permutation xs ys -> mean xs = mean ys.
Proof.
  intros Hp. destruct xs as [|x xs].
  - apply Permutation_nil in Hp. subst. reflexivity.
  - assert (Hys : ys <> []).
    { intros ->. apply Permutation_sym, Permutation_nil in Hp.
      discriminate Hp. }
    rewrite !mean_exact by (exact Hys || discriminate).
    rewrite (sum_permutation _ _ Hp), (Permutation_length Hp). reflexivity.
Qed.

End Exact.

(** ** Binary64 arithmetic *)

Section Binary64.

Lemma SFadd_comm (x y : spec_float) : SF64add x y = SF64add y x.
Proof.
  unfold SF64add, SFadd.
  destruct x as [sx|sx| |sx mx ex], y as [sy|sy| |sy my ey]; try reflexivity;
    try (destruct sx, sy; reflexivity).
  rewrite Z.min_comm, Z.add_comm. reflexivity.
Qed.

(** Adding two values to a zero gives the same in either order. *)
Lemma SFadd_two_from_zero (x y : spec_float) :
  SF64add (SF64add (S754_zero false) x) y
    = SF64add (SF64add (S754_zero false) y) x.
Proof.
  destruct x as [sx|sx| |sx mx ex], y as [sy|sy| |sy my ey];
    try (destruct sx; reflexivity);
    try (destruct sy; reflexivity);
    try (destruct sx, sy; reflexivity);
    try reflexivity.
  apply SFadd_comm.
Qed.

Lemma float_add_two_from_zero (x y : float) :
  PrimFloat.add (PrimFloat.add 0 x) y = PrimFloat.add (PrimFloat.add 0 y) x.
Proof.
  apply Prim2SF_inj. rewrite !add_spec.
  change (Prim2SF 0) with (S754_zero false). apply SFadd_two_from_zero.
Qed.

Lemma float_add_zero_l (x : float) :
  x <> (-0)%float -> PrimFloat.add 0 x = x.
Proof.
  intros Hx. apply Prim2SF_inj. rewrite add_spec.
  change (Prim2SF 0) with (S754_zero false).
  destruct (Prim2SF x) as [sx|sx| |sx mx ex] eqn:Hsf; try reflexivity.
  destruct sx; [|reflexivity].
  exfalso. apply Hx. apply Prim2SF_inj. rewrite Hsf. reflexivity.
Qed.

(** A sum started from zero is never the negative zero. *)
Lemma float_add_zero_not_neg_zero (x : float) :
  PrimFloat.add 0 x <> (-0)%float.
Proof.
  intros Heq. apply (f_equal Prim2SF) in Heq. rewrite add_spec in Heq.
  change (Prim2SF 0) with (S754_zero false) in Heq.
  change (Prim2SF (-0)) with (S754_zero true) in Heq.
  destruct (Prim2SF x) as [sx|sx| |sx mx ex];
    try destruct sx; discriminate Heq.
Qed.

Lemma is_nan_true (x : float) : PrimFloat.is_nan x = true -> x = nan.
Proof.
  unfold PrimFloat.is_nan. rewrite eqb_spec. intros Hn.
  apply Prim2SF_inj. change (Prim2SF nan) with S754_nan.
  unfold SFeqb, SFcompare in Hn.
  destruct (Prim2SF x) as [sx|sx| |sx mx ex]; try reflexivity.
  - discriminate Hn.
  - destruct sx; discriminate Hn.
  - destruct sx; rewrite Z.compare_refl, Pos.compare_cont_refl in Hn;
      discriminate Hn.
Qed.

Lemma div_eucl_exact (q b : Z) : 0 < b -> Z.div_eucl (q * b) b = (q, 0).
Proof.
  intros Hb.
  pose proof (Z.div_mul q b ltac:(lia)) as Hq.
  pose proof (Z.mod_mul q b ltac:(lia)) as Hr.
  unfold Z.div, Z.modulo in Hq, Hr.
  destruct (Z.div_eucl (q * b) b) as [q' r']. cbn in Hq, Hr. subst.
  reflexivity.
Qed.

(** A finite binary64 number is subnormal with the least exponent, or
    normal with a mantissa of 53 bits. *)
Lemma canonical_cases (mx : positive) (ex : Z) :
  bounded prec emax mx ex = true ->
  ex <= 971 /\
  ((ex = -1074 /\ Z.pos (digits2_pos mx) <= 53) \/
   (-1074 < ex /\ Z.pos (digits2_pos mx) = 53)).
Proof.
  unfold bounded, canonical_mantissa, fexp, emin, prec, emax.
  intros Hb. apply andb_true_iff in Hb as [Hc He].
  apply Z.eqb_eq in Hc. apply Z.leb_le in He. cbn in He. lia.
Qed.

Lemma round_canonical (s : bool) (mx : positive) (ex : Z) :
  bounded prec emax mx ex = true ->
  binary_round_aux prec emax s (Z.pos mx) ex loc_Exact = S754_finite s mx ex.
Proof.
  intros Hb. pose proof (canonical_cases mx ex Hb) as [He Hc].
  assert (Hshift : fexp prec emax (Z.pos (digits2_pos mx) + ex) - ex = 0).
  { unfold fexp, emin, prec, emax. lia. }
  unfold binary_round_aux, shr_fexp. cbn [Zdigits2 shr_record_of_loc].
  rewrite Hshift. cbn [shr shr_m loc_of_shr_record round_nearest_even Zdigits2
                        shr_record_of_loc].
  rewrite Hshift. cbn [shr shr_m].
  replace (ex <=? emax - prec) with true; [reflexivity|].
  symmetry. apply Z.leb_le. unfold emax, prec. lia.
Qed.

Lemma round_doubled (s : bool) (mx : positive) (ex : Z) :
  bounded prec emax mx ex = true -> -1074 < ex ->
  binary_round_aux prec emax s (Z.pos mx~0) (ex - 1) loc_Exact
    = S754_finite s mx ex.
Proof.
  intros Hb Hex. pose proof (canonical_cases mx ex Hb) as [He Hc].
  assert (Hd : Z.pos (digits2_pos mx) = 53) by lia.
  assert (Hshift :
            fexp prec emax (Z.pos (digits2_pos mx~0) + (ex - 1)) - (ex - 1)
            = 1).
  { cbn [digits2_pos]. rewrite Pos2Z.inj_succ.
    unfold fexp, emin, prec, emax. lia. }
  assert (Hshift0 : fexp prec emax (Z.pos (digits2_pos mx) + ex) - ex = 0).
  { unfold fexp, emin, prec, emax. lia. }
  unfold binary_round_aux, shr_fexp. cbn [Zdigits2 shr_record_of_loc].
  rewrite Hshift.
  cbn [shr iter_pos shr_1 shr_m orb loc_of_shr_record round_nearest_even
       Zdigits2 shr_record_of_loc].
  replace (ex - 1 + 1) with ex by lia.
  rewrite Hshift0. cbn [shr shr_m].
  replace (ex <=? emax - prec) with true; [reflexivity|].
  symmetry. apply Z.leb_le. unfold emax, prec. lia.
Qed.

Lemma SFdiv_one (sx : bool) (mx : positive) (ex : Z) :
  bounded prec emax mx ex = true ->
  SF64div (S754_finite sx mx ex) (S754_finite false 4503599627370496 (-52))
    = S754_finite sx mx ex.
Proof.
  intros Hb. pose proof (canonical_cases mx ex Hb) as [He Hc].
  unfold SF64div, SFdiv, SFdiv_core_binary.
  change (Zdigits2 4503599627370496) with 53.
  cbn [Zdigits2]. rewrite xorb_false_r.
  destruct Hc as [[-> Hd]|[Hex Hd]].
  - replace (Z.min _ _) with (-1074)
      by (unfold fexp, emin, prec, emax; lia).
    change (-1074 - -52 - -1074) with 52.
    rewrite Z.shiftl_mul_pow2 by lia.
    change (2 ^ 52) with 4503599627370496.
    rewrite (div_eucl_exact (Z.pos mx) 4503599627370496) by lia.
    change (new_location 4503599627370496 0) with loc_Exact.
    apply round_canonical. exact Hb.
  - replace (Z.min _ _) with (ex - 1)
      by (unfold fexp, emin, prec, emax; lia).
    replace (ex - -52 - (ex - 1)) with 53 by lia.
    rewrite Z.shiftl_mul_pow2 by lia.
    replace (Z.pos mx * 2 ^ 53) with (Z.pos mx~0 * 4503599627370496) by lia.
    rewrite (div_eucl_exact (Z.pos mx~0) 4503599627370496) by lia.
    change (new_location 4503599627370496 0) with loc_Exact.
    apply round_doubled; assumption.
Qed.

(** Dividing by one changes nothing, whatever the number. *)
Lemma float_div_one (x : float) : PrimFloat.div x 1 = x.
Proof.
  apply Prim2SF_inj. rewrite div_spec.
  change (Prim2SF 1) with (S754_finite false 4503599627370496 (-52)).
  pose proof (Prim2SF_valid x) as Hv.
  destruct (Prim2SF x) as [sx|sx| |sx mx ex];
    [destruct sx; reflexivity|destruct sx; reflexivity|reflexivity|].
  apply SFdiv_one. exact Hv.
Qed.

(** The mean of a column of one number. *)
Lemma float_mean_of_one (x : float) :
  (x <> (-0)%float -> mean [x] = x) /\
  (PrimFloat.is_nan x = false -> PrimFloat.eqb (mean [x]) x = true).
Proof.
  assert (Hmean : PrimFloat.is_nan x = false ->
                  mean [x] = PrimFloat.add 0 (PrimFloat.add 0 x)).
  { intros Hn. unfold mean, count_present, nan_to_zero, np_sum.
    cbn [filter map is_na FloatArith]. rewrite Hn. cbn [negb length].
    cbn [pairwise_sum length Nat.ltb Nat.leb fold_left radd rzero rdiv
         of_count FloatArith float_of_nat Pos.of_nat float_of_pos].
    apply float_div_one. }
  split.
  - intros Hx. destruct (PrimFloat.is_nan x) eqn:Hn.
    + rewrite (is_nan_true x Hn). reflexivity.
    + rewrite (Hmean eq_refl), (float_add_zero_l x Hx).
      apply float_add_zero_l. exact Hx.
  - intros Hn. rewrite (Hmean Hn).
    assert (Hself : PrimFloat.eqb x x = true).
    { unfold PrimFloat.is_nan in Hn. apply negb_false_iff in Hn. exact Hn. }
    rewrite eqb_spec, !add_spec. rewrite eqb_spec in Hself.
    change (Prim2SF 0) with (S754_zero false).
    destruct (Prim2SF x) as [sx|sx| |sx mx ex];
      try destruct sx; try exact Hself; reflexivity.
Qed.

(** The sum of a column of at most two entries does not depend on their
    order. *)
Lemma float_sum_of_two (xs ys : list float) :
  Permutation xs ys -> (length xs <= 2)%nat -> np_sum xs = np_sum ys.
Proof.
  intros Hp Hlen.
  destruct xs as [|x [|y [|z xs]]]; [| | |cbn in Hlen; lia].
  - apply Permutation_nil in Hp. subst. reflexivity.
  - apply Permutation_length_1_inv in Hp. subst. reflexivity.
  - apply Permutation_length_2_inv in Hp as [->| ->]; [reflexivity|].
    unfold np_sum.
    cbn [pairwise_sum length Nat.ltb Nat.leb fold_left radd rzero FloatArith].
    unfold PrimFloat.zero.
    rewrite (float_add_two_from_zero x y). reflexivity.
Qed.

End Binary64.

(** ** The average the function returns *)

Section Binary64Run.

Variable W : Type.
Variable utcnow : W -> Z * W.
Variable fetch_ohlcv : string -> string -> Z -> Z -> W -> response float * W.
Variable epoch_ms : Z -> Z.

(** C3, as the code has it.  In binary64 the frame returned holds the
    fetched rows of the window, and the TWAP returned is pandas' mean of
    their typical prices ((high + low) + close) / 3: the typical prices
    that are not NaN, added in numpy's pairwise order with each counted
    once, over their number; NaN when there is none.  When no typical
    price is NaN that is every row once over the number of rows.  For one
    row it is that row's typical price; for three rows with typical prices
    10, 20 and 30 it is 20. *)
Theorem twap_is_pandas_mean_of_window
    (fuel : nat) (symbol tf : string) (days : Z) (w : W)
    (twap : float) (df : list (row float)) :
  out (get_twap_last_5_business_days W utcnow fetch_ohlcv epoch_ms
         fuel symbol tf days w) = Return (Some (twap, df)) ->
  map bar df
    = window_rows (trace (get_twap_last_5_business_days W utcnow fetch_ohlcv
                            epoch_ms fuel symbol tf days w)) days /\
  df <> [] /\
  (count_present (map typical (map bar df)) = 0%nat -> twap = nan) /\
  (count_present (map typical (map bar df)) <> 0%nat ->
   twap = PrimFloat.div
            (np_sum (nan_to_zero (map typical (map bar df))))
            (float_of_nat (count_present (map typical (map bar df))))) /\
  (forallb (fun x => negb (PrimFloat.is_nan x)) (map typical (map bar df))
     = true ->
   twap = PrimFloat.div (np_sum (map typical (map bar df)))
                        (float_of_nat (length df))) /\
  (forall rw, df = [rw] ->
     (typical (bar rw) <> (-0)%float -> twap = typical (bar rw)) /\
     (PrimFloat.is_nan (typical (bar rw)) = false ->
      PrimFloat.eqb twap (typical (bar rw)) = true)) /\
  (forall r1 r2 r3, df = [r1; r2; r3] ->
     typical (bar r1) = 10%float -> typical (bar r2) = 20%float ->
     typical (bar r3) = 30%float -> twap = 20%float).
Proof.
  intros Hout.
  pose proof (get_twap_returns _ _ _ _ _ _ _ _ _ _ Hout) as Hres.
  symmetry in Hres. apply aggregate_some in Hres as (Hdf & Htwap & Hne).
  fold (window_rows (trace (get_twap_last_5_business_days W utcnow
                              fetch_ohlcv epoch_ms fuel symbol tf days w))
          days) in Hdf, Htwap, Hne.
  set (rows := window_rows _ _) in *.
  assert (Hbar : map bar df = rows).
  { rewrite Hdf, map_map. cbn [bar with_typical]. apply map_id. }
  rewrite Hbar.
  assert (Hlen : length df = length rows) by (rewrite <- Hbar, length_map; reflexivity).
  split; [reflexivity|].
  split; [intros ->; destruct rows; [contradiction|discriminate Hbar]|].
  split; [|split; [|split; [|split]]].
  - intros Hc. rewrite Htwap. unfold mean. rewrite Hc. reflexivity.
  - intros Hc. rewrite Htwap. unfold mean.
    destruct (count_present (map typical rows)); [contradiction|reflexivity].
  - intros Hall.
    destruct (@nothing_missing float FloatArith _ Hall) as [Hz Hc].
    rewrite Htwap. unfold mean. rewrite Hz, Hc, length_map, Hlen.
    destruct rows; [contradiction|reflexivity].
  - intros rw ->. cbn [map] in Hbar. rewrite Htwap, <- Hbar. cbn [map].
    apply float_mean_of_one.
  - intros r1 r2 r3 -> H1 H2 H3. cbn [map] in Hbar.
    rewrite Htwap, <- Hbar. cbn [map]. rewrite H1, H2, H3. reflexivity.
Qed.

End Binary64Run.

(** The claim's mean, every row of the frame once over the number of
    rows, and a run that departs from it: of three rows one has no high;
    its typical price is NaN, the mean of all three is NaN, and the TWAP
    returned is 20, the mean of the other two. *)
Lemma missing_price_is_left_out_of_the_mean :
  exists twap df,
    out run_gap = Return (Some (twap, df)) /\
    length df = 3%nat /\
    twap = 20%float /\
    PrimFloat.is_nan (arithmetic_mean (map typical_price df)) = true /\
    twap <> arithmetic_mean (map typical_price df).
Proof.
  eexists; eexists. split; [vm_compute; reflexivity|].
  split; [reflexivity|]. split; [reflexivity|].
  split; [vm_compute; reflexivity|].
  intros Heq. apply (f_equal PrimFloat.is_nan) in Heq.
  vm_compute in Heq. discriminate Heq.
Qed.

(** C8, as the code has it.  Reordering the series reorders the typical
    prices that are summed and leaves their count, so the two TWAPs are
    equal whenever the two sums are; in binary64 they are for a window of
    at most two rows, and with exact prices they are for every series. *)
Theorem twap_under_reordering :
  (forall (R : Type) (A : PriceArith R) (s1 s2 : list (candle R))
          (today days : Z),
     Permutation s1 s2 ->
     Permutation
       (nan_to_zero (map typical (filter (keep (today - days)) s1)))
       (nan_to_zero (map typical (filter (keep (today - days)) s2))) /\
     count_present (map typical (filter (keep (today - days)) s1))
       = count_present (map typical (filter (keep (today - days)) s2)) /\
     (np_sum (nan_to_zero (map typical (filter (keep (today - days)) s1)))
        = np_sum (nan_to_zero (map typical (filter (keep (today - days)) s2)))
      -> option_map fst (aggregate s1 today days)
           = option_map fst (aggregate s2 today days))) /\
  (forall (s1 s2 : list (candle float)) (today days : Z),
     Permutation s1 s2 ->
     (length (filter (keep (today - days)) s1) <= 2)%nat ->
     option_map fst (aggregate s1 today days)
       = option_map fst (aggregate s2 today days)) /\
  (forall (s1 s2 : list (candle Qc)) (today days : Z),
     Permutation s1 s2 ->
     option_map fst (aggregate s1 today days)
       = option_map fst (aggregate s2 today days)).
Proof.
  assert (Hgen :
    forall (R : Type) (A : PriceArith R) (s1 s2 : list (candle R))
           (today days : Z),
      Permutation s1 s2 ->
      Permutation
        (nan_to_zero (map typical (filter (keep (today - days)) s1)))
        (nan_to_zero (map typical (filter (keep (today - days)) s2))) /\
      count_present (map typical (filter (keep (today - days)) s1))
        = count_present (map typical (filter (keep (today - days)) s2)) /\
      (np_sum (nan_to_zero (map typical (filter (keep (today - days)) s1)))
         = np_sum (nan_to_zero (map typical (filter (keep (today - days)) s2)))
       -> option_map fst (aggregate s1 today days)
            = option_map fst (aggregate s2 today days))).
  { intros R A s1 s2 today days Hp.
    pose proof (filter_permutation (keep (today - days)) _ _ Hp) as Hf.
    pose proof (Permutation_map typical Hf) as Hcol.
    split; [apply nan_to_zero_permutation; exact Hcol|].
    split; [apply count_present_permutation; exact Hcol|].
    intros Hsum. unfold aggregate.
    destruct (filter (keep (today - days)) s1) as [|a l1] eqn:H1;
      destruct (filter (keep (today - days)) s2) as [|b l2] eqn:H2.
    - reflexivity.
    - apply Permutation_nil in Hf. discriminate Hf.
    - apply Permutation_sym, Permutation_nil in Hf. discriminate Hf.
    - cbn [option_map fst]. f_equal. rewrite !map_map.
      change (fun x : candle R => typical_price (with_typical x))
        with (@typical R A).
      unfold mean.
      rewrite (count_present_permutation _ _ Hcol), Hsum. reflexivity. }
  split; [exact Hgen|split].
  - intros s1 s2 today days Hp Hlen.
    destruct (Hgen float FloatArith s1 s2 today days Hp) as (Hsummed & _ & Heq).
    apply Heq. apply float_sum_of_two; [exact Hsummed|].
    unfold nan_to_zero. rewrite !length_map. exact Hlen.
  - intros s1 s2 today days Hp.
    destruct (Hgen Qc QcArith s1 s2 today days Hp) as (Hsummed & _ & Heq).
    apply Heq. rewrite !np_sum_total. apply sum_permutation. exact Hsummed.
Qed.

(** In binary64, summed in order, the same three candles give two
    different averages in two orders. *)
Lemma twap_depends_on_order_in_binary64 :
  Permutation big_first big_last /\
  option_map fst (aggregate big_first 20 5)
    <> option_map fst (aggregate big_last 20 5).
Proof.
  split.
  - unfold big_first, big_last.
    eapply Permutation_trans; [apply Permutation_cons_append|].
    reflexivity.
  - intros Heq.
    apply (f_equal (fun o => match o with
                             | Some x => PrimFloat.eqb x 3333333333333333.5
                             | None => false
                             end)) in Heq.
    vm_compute in Heq. discriminate Heq.
Qed.

(** The window of the claim, and a run that breaks it: the exchange
    answers with a candle a minute later than the clock reading, the loop
    stops on it, and the candle is in the frame the mean is taken over. *)
Lemma late_candle_reaches_the_mean :
  exists twap df,
    out run_late = Return (Some (twap, df)) /\
    ~ within_window (utc_epoch_ms (noon20 - 5 * day_us))
                    (utc_epoch_ms noon20) df.
Proof.
  eexists; eexists. split; [vm_compute; reflexivity|].
  intros Hw. inversion Hw as [|rw l [_ Hle] _]; subst.
  vm_compute in Hle. apply Hle. reflexivity.
Qed.

(** C10.  Two runs with the same window that both finish, read the same
    clock values and receive the same page responses have the same
    outcome, whatever else differs: the world behind the clock and the
    exchange, the time zone, the fuel, the symbol and the timeframe. *)
Theorem same_observations_same_result
    {R : Type} `{PriceArith R} (W1 W2 : Type)
    (utcnow1 : W1 -> Z * W1) (utcnow2 : W2 -> Z * W2)
    (fetch1 : string -> string -> Z -> Z -> W1 -> response R * W1)
    (fetch2 : string -> string -> Z -> Z -> W2 -> response R * W2)
    (epoch1 epoch2 : Z -> Z) (fuel1 fuel2 : nat)
    (symbol1 symbol2 timeframe1 timeframe2 : string)
    (days_to_fetch : Z) (w1 : W1) (w2 : W2) :
  let r1 := get_twap_last_5_business_days W1 utcnow1 fetch1 epoch1
              fuel1 symbol1 timeframe1 days_to_fetch w1 in
  let r2 := get_twap_last_5_business_days W2 utcnow2 fetch2 epoch2
              fuel2 symbol2 timeframe2 days_to_fetch w2 in
  out r1 <> OutOfFuel -> out r2 <> OutOfFuel ->
  clock_reads (trace r1) = clock_reads (trace r2) ->
  responses (trace r1) = responses (trace r2) ->
  out r1 = out r2.
Proof.
  intros r1 r2 Hf1 Hf2 Hclock Hresp.
  destruct (get_twap_replay W1 utcnow1 fetch1 epoch1 fuel1 symbol1 timeframe1
              days_to_fetch w1) as [Hd1|Hr1]; [contradiction|].
  destruct (get_twap_replay W2 utcnow2 fetch2 epoch2 fuel2 symbol2 timeframe2
              days_to_fetch w2) as [Hd2|Hr2]; [contradiction|].
  fold r1 in Hr1. fold r2 in Hr2.
  rewrite Hr1, Hr2, Hclock, Hresp. reflexivity.
Qed.

(** ** The scenarios, run *)

Lemma firstn_In {A : Type} (n : nat) (l : list A) (x : A) :
  In x (firstn n l) -> In x l.
Proof.
  revert l; induction n as [|n IH]; intros l Hin.
  - cbn in Hin. destruct Hin.
  - destruct l as [|y l]; [destruct Hin|].
    cbn in Hin. destruct Hin as [->|Hin];
      [left; reflexivity|right; apply IH; exact Hin].
Qed.

(** The exchange with a book serves nothing from before the cursor. *)
Lemma book_fetch_honours_since {R : Type} (book : list (candle R))
    (symbol timeframe : string) :
  honours_since Z (book_fetch book) symbol timeframe.
Proof.
  intros s w w' b Hf. unfold book_fetch in Hf.
  assert (Hb : b = firstn (Z.to_nat limit)
                     (filter (fun c => s <=? timestamp c) book))
    by congruence.
  apply forallb_forall. intros x Hx. rewrite Hb in Hx.
  apply firstn_In in Hx. apply filter_In in Hx as [_ Hx]. exact Hx.
Qed.

Lemma fetch_loop_cursor_and_series_ascend_witness :
  StronglySorted Z.lt (cursors (trace loop_two_pages)) /\
  cursor_follows (trace loop_two_pages) = true /\
  forall ohlcv, out loop_two_pages = Return ohlcv ->
    ohlcv = concat (batches (trace loop_two_pages)) /\
    StronglySorted Z.lt (map timestamp ohlcv) /\
    NoDup (map timestamp ohlcv).
Proof.
  apply (fetch_loop_cursor_and_series_ascend _ script_fetch "X/USDT" "1d"
           (noon_ms 20) 5 (noon_ms 15) two_pages).
  vm_compute. reflexivity.
Defined.

Lemma fetch_loop_terminates_witness :
  out loop_small_book <> OutOfFuel /\
  (length (trace loop_small_book) <= Z.to_nat (5 - 0 + 1) + 1)%nat /\
  stops_at_end 5 (responses (trace loop_small_book)) = true.
Proof.
  apply (fetch_loop_terminates Z (book_fetch small_book) "X/USDT" "1m" 5
           7 0 [] 0).
  - apply book_fetch_honours_since.
  - vm_compute. lia.
Defined.

Lemma no_data_returns_none_witness : out run_old = Return None.
Proof.
  apply (no_data_returns_none _ script_clock script_fetch utc_epoch_ms
           5 "X/USDT" "1d" 5 old_page).
  - vm_compute. discriminate.
  - vm_compute. reflexivity.
  - vm_compute. reflexivity.
Defined.

Lemma failure_propagates_witness :
  out run_failing = Raise "NetworkError" /\
  exists front,
    trace run_failing
      = front ++ [Fetched (noon_ms 16 + 1) (Failure "NetworkError")] /\
    forallb (fun ev => negb (is_failure ev)) front = true.
Proof.
  apply (failure_propagates _ script_clock script_fetch utc_epoch_ms
           5 "X/USDT" "1d" 5 failing_second).
  vm_compute. right. right. left. reflexivity.
Defined.

Lemma window_is_calendar_days_witness :
  exists res,
    out run_over_midnight = Return res /\
    kept res
      = filter (fun c => last (clock_reads (trace run_over_midnight)) 0
                           / day_us - 4 <=? timestamp c / day_ms)
               (fetched (trace run_over_midnight)) /\
    forall c, In c (kept res) <->
              In c (fetched (trace run_over_midnight)) /\
              last (clock_reads (trace run_over_midnight)) 0 / day_us - 4
                <= timestamp c / day_ms.
Proof.
  eexists. split; [vm_compute; reflexivity|].
  apply (window_is_calendar_days _ script_clock script_fetch utc_epoch_ms
           5 "X/USDT" "1d" 4 over_midnight).
  vm_compute. reflexivity.
Defined.

Lemma series_for_mean_nonempty_from_cutoff_witness :
  exists twap df,
    out run_book = Return (Some (twap, df)) /\
    df <> [] /\
    Forall (fun rw =>
              today_of (trace run_book) - 5
                <= date_of_ms (timestamp (bar rw))) df.
Proof.
  eexists; eexists. split; [vm_compute; reflexivity|].
  eapply (series_for_mean_nonempty_from_cutoff Z still_clock
           (book_fetch [c16; c17; c18]) utc_epoch_ms 5 "X/USDT" "1d" 5 noon20).
  vm_compute. reflexivity.
Defined.

Lemma result_frame_adds_typical_price_witness :
  exists twap df,
    out run_book = Return (Some (twap, df)) /\
    map bar df
      = filter (keep (today_of (trace run_book) - 5))
               (fetched (trace run_book)) /\
    Forall (fun rw =>
              typical_price rw
                = rdiv (radd (radd (high (bar rw)) (low (bar rw)))
                             (close (bar rw)))
                       (of_count 3)) df.
Proof.
  eexists; eexists. split; [vm_compute; reflexivity|].
  eapply (result_frame_adds_typical_price Z still_clock
           (book_fetch [c16; c17; c18]) utc_epoch_ms 5 "X/USDT" "1d" 5 noon20).
  vm_compute. reflexivity.
Defined.

Lemma same_observations_same_result_witness : out run_book = out run_as_book.
Proof.
  apply (same_observations_same_result Z _ still_clock script_clock
           (book_fetch [c16; c17; c18]) script_fetch
           utc_epoch_ms cet_epoch_ms 5 9 "X/USDT" "Y/USDT" "1d" "1h"
           5 noon20 as_book).
  - vm_compute. discriminate.
  - vm_compute. discriminate.
  - vm_compute. reflexivity.
  - vm_compute. reflexivity.
Defined.

(** ** Worked examples *)

Example float_mean_10_20_30 :
  mean [10%float; 20%float; 30%float] = 20%float.
Proof. reflexivity. Qed.

Example float_one_candle :
  option_map fst (aggregate one_bar 20 5) = Some 2%float.
Proof. reflexivity. Qed.

Example exact_mean_10_20_30 :
  option_map (fun p => this (fst p)) (aggregate [c16; c17; c18] 20 5)
    = Some 20%Q.
Proof. vm_compute. reflexivity. Qed.

(** Today a Monday and a window of two days: the cutoff is the Saturday,
    and the Saturday and Sunday candles are both kept. *)
Example weekend_days_are_kept :
  weekday 4 = 0 /\ weekday (4 - 2) = 5 /\ weekday 3 = 6 /\
  kept (aggregate [c_sat; c_sun] 4 2) = [c_sat; c_sun].
Proof. repeat split. Qed.

(** A run that begins on day 20 and reads the clock again on day 21 cuts
    off at day 21 less 4: the candle of day 16 is fetched and dropped. *)
Example cutoff_is_taken_from_the_second_reading :
  map timestamp (fetched (trace run_over_midnight))
    = [noon_ms 16; noon_ms 17] /\
  map (fun rw => timestamp (bar rw)) (result_rows (out run_over_midnight))
    = [noon_ms 17].
Proof. split; vm_compute; reflexivity. Qed.

(** One hour east of UTC, both bounds of the range sit an hour early. *)
Example local_zone_shifts_the_range :
  cet_epoch_ms noon20 = utc_epoch_ms noon20 - 3600000.
Proof. reflexivity. Qed.

(** ** More on the fetch loop *)

Section LoopBounds.

Context {R : Type}.
Variable W : Type.
Variable fetch_ohlcv : string -> string -> Z -> Z -> W -> response R * W.
Variables symbol tf : string.
Variable now_ms : Z.

Local Abbreviation loop fuel :=
  (fetch_loop W fetch_ohlcv fuel symbol tf now_ms).

(** When every page starts at or after its cursor, nothing gathered is
    earlier than a bound below the first cursor. *)
Lemma fetch_loop_from_since (fuel : nat) :
  forall (lo since : Z) (ohlcv res : list (candle R)) (w : W),
  forallb page_from_since (trace (loop fuel since ohlcv w)) = true ->
  lo <= since ->
  Forall (fun c => lo <= timestamp c) ohlcv ->
  out (loop fuel since ohlcv w) = Return res ->
  Forall (fun c => lo <= timestamp c) res.
Proof.
  induction fuel as [|fuel IH]; intros lo since ohlcv res w Hok Hlo Hacc Hout;
    [discriminate Hout|].
  rewrite fetch_loop_S in *.
  destruct (fetch_ohlcv symbol tf since limit w) as [batch w1].
  destruct batch as [[|c rest]|e].
  - cbn in Hout. injection Hout as <-. exact Hacc.
  - assert (Hpage : page_from_since (Fetched since (Page (c :: rest))) = true ->
                    Forall (fun c => lo <= timestamp c) (ohlcv ++ c :: rest) /\
                    since <= timestamp (last rest c)).
    { intros Hp. cbn [page_from_since] in Hp. split.
      - apply Forall_app; split; [exact Hacc|].
        apply Forall_forall. intros x Hx.
        rewrite forallb_forall in Hp. specialize (Hp x Hx).
        apply Z.leb_le in Hp. lia.
      - apply page_last_from_since. exact Hp. }
    destruct (timestamp (last rest c) >? now_ms).
    + cbn [trace forallb] in Hok. rewrite andb_true_r in Hok.
      cbn in Hout. injection Hout as <-. apply Hpage. exact Hok.
    + cbn [out trace] in *.
      change (forallb page_from_since
                (Fetched since (Page (c :: rest)) :: ?t))
        with (page_from_since (Fetched since (Page (c :: rest)))
              && forallb page_from_since t) in Hok.
      apply andb_true_iff in Hok as [Hp Hrest].
      destruct (Hpage Hp) as [Hall Hle].
      apply (IH lo _ _ res _ Hrest); [lia|exact Hall|exact Hout].
  - discriminate Hout.
Qed.

(** In a run of pages each in strict time order, every page but the last
    delivered lies at or before [now_ms]. *)
Lemma fetch_loop_early_pages (fuel : nat) :
  forall (since : Z) (ohlcv : list (candle R)) (w : W)
         (pages : list (list (candle R))) (final_page : list (candle R)),
  forallb page_ok (trace (loop fuel since ohlcv w)) = true ->
  batches (trace (loop fuel since ohlcv w)) = pages ++ [final_page] ->
  Forall (fun c => timestamp c <= now_ms) (concat pages).
Proof.
  induction fuel as [|fuel IH]; intros since ohlcv w pages final_page Hok Hb.
  - cbn in Hb. destruct pages; discriminate Hb.
  - rewrite fetch_loop_S in *.
    destruct (fetch_ohlcv symbol tf since limit w) as [batch w1].
    destruct batch as [[|c rest]|e].
    + cbn in Hb. destruct pages as [|p [|q pages]]; try discriminate Hb.
      constructor.
    + destruct (timestamp (last rest c) >? now_ms) eqn:Hpast.
      * cbn in Hb. destruct pages as [|p [|q pages]]; try discriminate Hb.
        constructor.
      * cbn [trace batches] in *.
        change (forallb page_ok (Fetched since (Page (c :: rest)) :: ?t))
          with (page_ok (Fetched since (Page (c :: rest)))
                && forallb page_ok t) in Hok.
        apply andb_true_iff in Hok as [Hp Hrest].
        destruct pages as [|p pages].
        { constructor. }
        cbn [app] in Hb. injection Hb as <- Hb.
        cbn [concat]. apply Forall_app; split.
        -- cbn [page_ok] in Hp. apply andb_true_iff in Hp as [Hasc Hge].
           pose proof (page_bounds since c rest Hasc Hge) as Hbd.
           rewrite Z.gtb_ltb in Hpast. apply Z.ltb_ge in Hpast.
           apply Forall_forall. intros x Hx.
           rewrite Forall_forall in Hbd.
           specialize (Hbd (timestamp x) (in_map timestamp _ _ Hx)). lia.
        -- apply (IH _ _ _ _ _ Hrest Hb).
    + cbn in Hb. destruct pages; discriminate Hb.
Qed.

End LoopBounds.

(** ** More on the whole function *)

Section RunBounds.

Context {R : Type} `{PriceArith R}.
Variable W : Type.
Variable utcnow : W -> Z * W.
Variable fetch_ohlcv : string -> string -> Z -> Z -> W -> response R * W.
Variable epoch_ms : Z -> Z.

Local Abbreviation run :=
  (get_twap_last_5_business_days W utcnow fetch_ohlcv epoch_ms).

(** A run that returns, taken apart: the first clock reading, the loop
    that returned, the second clock reading. *)
Lemma get_twap_return_inv (fuel : nat) (symbol tf : string) (days : Z)
    (w : W) (res : option (R * list (row R))) :
  out (run fuel symbol tf days w) = Return res ->
  exists end_time w1 ohlcv now2 w2,
    utcnow w = (end_time, w1) /\
    out (fetch_loop W fetch_ohlcv fuel symbol tf (epoch_ms end_time)
           (epoch_ms (end_time - days * day_us)) [] w1) = Return ohlcv /\
    utcnow (final (fetch_loop W fetch_ohlcv fuel symbol tf (epoch_ms end_time)
                     (epoch_ms (end_time - days * day_us)) [] w1))
      = (now2, w2) /\
    trace (run fuel symbol tf days w)
      = ClockRead end_time
        :: trace (fetch_loop W fetch_ohlcv fuel symbol tf (epoch_ms end_time)
                    (epoch_ms (end_time - days * day_us)) [] w1)
        ++ [ClockRead now2] /\
    final (run fuel symbol tf days w) = w2 /\
    res = aggregate ohlcv (date_of_us now2) days /\
    ohlcv = fetched (trace (run fuel symbol tf days w)) /\
    date_of_us now2 = today_of (trace (run fuel symbol tf days w)).
Proof.
  unfold get_twap_last_5_business_days.
  destruct (utcnow w) as [end_time w1].
  pose proof (fetch_loop_collect W fetch_ohlcv symbol tf (epoch_ms end_time)
                fuel (epoch_ms (end_time - days * day_us)) [] w1) as Hc.
  pose proof (fetch_loop_no_clock W fetch_ohlcv symbol tf (epoch_ms end_time)
                fuel (epoch_ms (end_time - days * day_us)) [] w1) as Hnc.
  set (lp := fetch_loop W fetch_ohlcv fuel symbol tf (epoch_ms end_time)
               (epoch_ms (end_time - days * day_us)) [] w1) in *.
  destruct (out lp) as [ohlcv|e|] eqn:Hlp; try discriminate.
  destruct (utcnow (final lp)) as [now2 w2] eqn:Hnow2.
  cbn [out trace final]. intros Hres. injection Hres as <-.
  exists end_time, w1, ohlcv, now2, w2.
  destruct Hc as [Hc|Hc]; [discriminate Hc|].
  symmetry in Hc. apply collect_return in Hc as [Hc _]. cbn [app] in Hc.
  repeat split; try assumption; try reflexivity.
  - unfold fetched. cbn [batches]. rewrite batches_app. cbn [batches].
    rewrite app_nil_r. exact Hc.
  - unfold today_of. cbn [clock_reads]. rewrite clock_reads_app, Hnc.
    reflexivity.
Qed.

(** A run that raises, taken apart: the failed request is the last thing
    it observed. *)
Lemma get_twap_raise_inv (fuel : nat) (symbol tf : string) (days : Z)
    (w : W) (e : string) :
  out (run fuel symbol tf days w) = Raise e ->
  exists s front,
    trace (run fuel symbol tf days w) = front ++ [Fetched s (Failure e)].
Proof.
  unfold get_twap_last_5_business_days.
  destruct (utcnow w) as [end_time w1].
  set (since := epoch_ms (end_time - days * day_us)).
  set (now_ms := epoch_ms end_time).
  pose proof (fetch_loop_collect W fetch_ohlcv symbol tf now_ms
                fuel since [] w1) as Hc.
  pose proof (fetch_loop_failure W fetch_ohlcv symbol tf now_ms
                fuel since [] w1) as Hf.
  set (lp := fetch_loop W fetch_ohlcv fuel symbol tf now_ms since [] w1) in *.
  destruct (out lp) as [ohlcv|e'|] eqn:Hlp.
  - destruct (utcnow (final lp)); discriminate.
  - cbn [out trace]. intros He. injection He as ->.
    destruct Hc as [Hc|Hc]; [discriminate Hc|].
    symmetry in Hc. apply collect_raise in Hc as [s Hin].
    destruct (Hf s e Hin) as [_ [front [Htr _]]].
    exists s, (ClockRead end_time :: front). rewrite Htr. reflexivity.
  - discriminate.
Qed.

Lemma forallb_clock_free (p : event R -> bool) (t1 t2 : Z)
    (tr : list (event R)) :
  forallb p (ClockRead t1 :: tr ++ [ClockRead t2]) = true ->
  forallb p tr = true.
Proof.
  intros Hall. cbn [forallb] in Hall.
  apply andb_true_iff in Hall as [_ Hall].
  rewrite forallb_app in Hall. apply andb_true_iff in Hall as [Hall _].
  exact Hall.
Qed.

(** When every page started at or after its cursor, no row of the frame is
    earlier than the start of the range, [since]. *)
Theorem frame_not_before_since (fuel : nat) (symbol tf : string) (days : Z)
    (w : W) (twap : R) (df : list (row R)) :
  out (run fuel symbol tf days w) = Return (Some (twap, df)) ->
  forallb page_from_since (trace (run fuel symbol tf days w)) = true ->
  Forall (fun rw =>
            epoch_ms (fst (utcnow w) - days * day_us) <= timestamp (bar rw))
         df.
Proof.
  intros Hout Hok.
  destruct (get_twap_return_inv _ _ _ _ _ _ Hout)
    as (end_time & w1 & ohlcv & now2 & w2 & Hnow & Hlp & _ & Htr & _ & Hres
        & Hseen & Htoday).
  rewrite Hnow. cbn [fst].
  rewrite Htr in Hok. apply forallb_clock_free in Hok.
  pose proof (fetch_loop_from_since W fetch_ohlcv symbol tf (epoch_ms end_time)
                fuel _ _ [] ohlcv w1 Hok (Z.le_refl _) (Forall_nil _) Hlp)
    as Hall.
  symmetry in Hres. apply aggregate_some in Hres as [-> _].
  apply Forall_forall. intros rw Hrw.
  apply in_map_iff in Hrw as [c [<- Hc]]. cbn [bar with_typical].
  apply filter_In in Hc as [Hc _].
  rewrite Forall_forall in Hall. apply Hall. exact Hc.
Qed.

(** With pages in strict time order from their cursors on, candles later
    than [now_ms] can only come with the last page delivered. *)
Theorem only_last_page_passes_now (fuel : nat) (symbol tf : string)
    (days : Z) (w : W) (res : option (R * list (row R)))
    (pages : list (list (candle R))) (final_page : list (candle R)) :
  out (run fuel symbol tf days w) = Return res ->
  forallb page_ok (trace (run fuel symbol tf days w)) = true ->
  batches (trace (run fuel symbol tf days w)) = pages ++ [final_page] ->
  Forall (fun c => timestamp c <= epoch_ms (fst (utcnow w))) (concat pages).
Proof.
  intros Hout Hok Hb.
  destruct (get_twap_return_inv _ _ _ _ _ _ Hout)
    as (end_time & w1 & ohlcv & now2 & w2 & Hnow & Hlp & _ & Htr & _ & Hres
        & Hseen & Htoday).
  rewrite Hnow. cbn [fst].
  rewrite Htr in Hok, Hb. apply forallb_clock_free in Hok.
  cbn [batches] in Hb. rewrite batches_app in Hb. cbn [batches] in Hb.
  rewrite app_nil_r in Hb.
  apply (fetch_loop_early_pages W fetch_ohlcv symbol tf (epoch_ms end_time)
           fuel _ _ _ _ _ Hok Hb).
Qed.

(** With pages in strict time order from their cursors on, the frame is in
    strict time order: no timestamp appears twice in it. *)
Theorem frame_strictly_ascending (fuel : nat) (symbol tf : string)
    (days : Z) (w : W) (twap : R) (df : list (row R)) :
  out (run fuel symbol tf days w) = Return (Some (twap, df)) ->
  forallb page_ok (trace (run fuel symbol tf days w)) = true ->
  StronglySorted Z.lt (map (fun rw => timestamp (bar rw)) df) /\
  NoDup (map (fun rw => timestamp (bar rw)) df).
Proof.
  intros Hout Hok.
  destruct (get_twap_return_inv _ _ _ _ _ _ Hout)
    as (end_time & w1 & ohlcv & now2 & w2 & Hnow & Hlp & _ & Htr & _ & Hres
        & Hseen & Htoday).
  rewrite Htr in Hok. apply forallb_clock_free in Hok.
  destruct (fetch_loop_ascending W fetch_ohlcv symbol tf (epoch_ms end_time)
              fuel _ [] w1 Hok (SSorted_nil _) (Forall_nil _))
    as (_ & _ & _ & Hsorted).
  destruct (Hsorted _ Hlp) as [_ Hs].
  symmetry in Hres. apply aggregate_some in Hres as [-> _].
  assert (Hgoal : StronglySorted Z.lt
            (map (fun rw : row R => timestamp (bar rw))
               (map with_typical (filter (keep (date_of_us now2 - days)) ohlcv)))).
  { rewrite map_map. cbn [bar with_typical].
    clear - Hs. induction ohlcv as [|c l IH]; [constructor|].
    cbn [map] in Hs. inversion Hs as [|? ? Hl Hc]; subst.
    cbn [filter]. destruct (keep _ c); [|apply IH; exact Hl].
    cbn [map]. constructor; [apply IH; exact Hl|].
    apply Forall_forall. intros t Ht.
    apply in_map_iff in Ht as [x [<- Hx]]. apply filter_In in Hx as [Hx _].
    rewrite Forall_forall in Hc. apply Hc. apply in_map. exact Hx. }
  split; [exact Hgoal|apply sorted_nodup; exact Hgoal].
Qed.

(** What the result keeps of the fetched rows. *)
Lemma kept_aggregate (ohlcv : list (candle R)) (today days : Z) :
  kept (aggregate ohlcv today days) = filter (keep (today - days)) ohlcv.
Proof.
  unfold aggregate.
  destruct (filter (keep (today - days)) ohlcv) as [|c l]; [reflexivity|].
  cbn [kept]. rewrite map_map. cbn [bar with_typical]. apply map_id.
Qed.

Lemma filter_all {A : Type} (p : A -> bool) (l : list A) :
  Forall (fun x => p x = true) l -> filter p l = l.
Proof.
  induction 1 as [|x l Hx Hl IH]; [reflexivity|].
  cbn [filter]. rewrite Hx, IH. reflexivity.
Qed.

End RunBounds.

Section WindowStart.

Context {R : Type} `{PriceArith R}.
Variable W : Type.
Variable utcnow : W -> Z * W.
Variable fetch_ohlcv : string -> string -> Z -> Z -> W -> response R * W.
Variable epoch_ms : Z -> Z.

(** When every page started at or after its cursor and the start of the
    range, [since], is not dated before the cutoff, the date filter drops
    nothing: the frame holds every row fetched. *)
Theorem date_filter_keeps_all (fuel : nat) (symbol tf : string)
    (days : Z) (w : W) (res : option (R * list (row R))) :
  out (get_twap_last_5_business_days W utcnow fetch_ohlcv epoch_ms
         fuel symbol tf days w) = Return res ->
  forallb page_from_since
    (trace (get_twap_last_5_business_days W utcnow fetch_ohlcv epoch_ms
              fuel symbol tf days w)) = true ->
  today_of (trace (get_twap_last_5_business_days W utcnow fetch_ohlcv
                     epoch_ms fuel symbol tf days w)) - days
    <= date_of_ms (epoch_ms (fst (utcnow w) - days * day_us)) ->
  kept res
    = fetched (trace (get_twap_last_5_business_days W utcnow fetch_ohlcv
                        epoch_ms fuel symbol tf days w)).
Proof.
  intros Hout Hok Hday.
  destruct (get_twap_return_inv _ _ _ _ _ _ _ _ _ _ Hout)
    as (end_time & w1 & ohlcv & now2 & w2 & Hnow & Hlp & _ & Htr & _ & Hres
        & Hseen & Htoday).
  rewrite <- Hseen, <- Htoday in *. rewrite Hnow in Hday. cbn [fst] in Hday.
  rewrite Htr in Hok. apply forallb_clock_free in Hok.
  pose proof (fetch_loop_from_since W fetch_ohlcv symbol tf
                (epoch_ms end_time) fuel _ _ [] ohlcv w1 Hok
                (Z.le_refl _) (Forall_nil _) Hlp) as Hall.
  rewrite Hres, kept_aggregate. apply filter_all.
  eapply Forall_impl; [|exact Hall]. cbn beta. intros c Hc.
  unfold keep. apply Z.leb_le.
  eapply Z.le_trans; [exact Hday|].
  unfold date_of_ms, day_ms. apply Z.div_le_mono; [lia|exact Hc].
Qed.

End WindowStart.

(** ** What the average reads *)

Section ReadColumns.

Context {R : Type} `{PriceArith R}.

Lemma typical_same_read (c1 c2 : candle R) :
  same_read_columns c1 c2 -> typical c1 = typical c2.
Proof.
  intros (_ & Hh & Hl & Hc). unfold typical. rewrite Hh, Hl, Hc. reflexivity.
Qed.

Lemma filter_same_read (cutoff : Z) (s1 s2 : list (candle R)) :
  Forall2 same_read_columns s1 s2 ->
  Forall2 same_read_columns (filter (keep cutoff) s1)
                            (filter (keep cutoff) s2).
Proof.
  induction 1 as [|c1 c2 l1 l2 Hc Hl IH]; [constructor|].
  cbn [filter].
  assert (Hk : keep cutoff c1 = keep cutoff c2)
    by (unfold keep; destruct Hc as (-> & _); reflexivity).
  rewrite Hk. destruct (keep cutoff c2); [|exact IH].
  constructor; [exact Hc|exact IH].
Qed.

(** The open and the volume never enter the TWAP: two series that agree,
    row by row, on timestamp, high, low and close have the same TWAP. *)
Theorem twap_ignores_open_and_volume
    (s1 s2 : list (candle R)) (today days : Z) :
  Forall2 same_read_columns s1 s2 ->
  option_map fst (aggregate s1 today days)
    = option_map fst (aggregate s2 today days).
Proof.
  intros Hsame.
  pose proof (filter_same_read (today - days) _ _ Hsame) as Hf.
  unfold aggregate.
  destruct Hf as [|c1 c2 l1 l2 Hc Hl]; [reflexivity|].
  cbn [option_map fst]. f_equal. rewrite !map_map.
  change (fun x : candle R => typical_price (with_typical x)) with (@typical R _).
  f_equal. cbn [map]. rewrite (typical_same_read _ _ Hc). f_equal.
  clear - Hl. induction Hl as [|a b l1 l2 Hab Hl IH]; [reflexivity|].
  cbn [map]. rewrite (typical_same_read _ _ Hab), IH. reflexivity.
Qed.

End ReadColumns.

(** ** The dashboard *)

Section DashboardFacts.

Context {R : Type} `{PriceArith R}.
Variable W : Type.
Variable utcnow : W -> Z * W.
Variable fetch_ohlcv : string -> string -> Z -> Z -> W -> response R * W.
Variable epoch_ms : Z -> Z.

Local Abbreviation each fuel :=
  (for_tokens W utcnow fetch_ohlcv epoch_ms fuel).
Local Abbreviation page :=
  (main W utcnow fetch_ohlcv epoch_ms).

Lemma for_tokens_cons (fuel : nat) (tf : string) (days : Z) (token : string)
    (rest : list string) (results : list (string * R)) (w : W) :
  each fuel tf days (token :: rest) results w =
  let r := get_twap_last_5_business_days W utcnow fetch_ohlcv epoch_ms
             fuel token tf days w in
  match out r with
  | Return (Some (twap, df)) =>
    let s := each fuel tf days rest (results ++ [(token, twap)]) (final r) in
    mkSession (ended s)
      (Subheader token :: TwapLine days twap :: LineChart (chart_points df)
         :: screen s)
      (trace r ++ observed s) (world s)
  | Return None =>
    let s := each fuel tf days rest results (final r) in
    mkSession (ended s) (Warning token :: screen s)
      (trace r ++ observed s) (world s)
  | Raise e => mkSession (Raise e) [] (trace r) (final r)
  | OutOfFuel => mkSession OutOfFuel [] (trace r) (final r)
  end.
Proof. reflexivity. Qed.

(** What the loop over the tokens leaves on the page when it runs
    through: one panel or one warning for each token, in order; the
    results are those handed in and then the panels; no summary; no empty
    chart. *)
Lemma for_tokens_returns (fuel : nat) (tf : string) (days : Z)
    (tokens : list string) :
  forall (results results' : list (string * R)) (w : W),
  ended (each fuel tf days tokens results w) = Return results' ->
  map fst (token_marks (screen (each fuel tf days tokens results w)))
    = tokens /\
  results' = results ++ panels (screen (each fuel tf days tokens results w)) /\
  map fst (panels (screen (each fuel tf days tokens results w)))
    = map fst (filter snd
                 (token_marks (screen (each fuel tf days tokens results w)))).
Proof.
  induction tokens as [|token rest IH]; intros results results' w Hend.
  - cbn in *. injection Hend as <-. rewrite app_nil_r. repeat split.
  - rewrite for_tokens_cons in *. cbn zeta in *.
    destruct (out (get_twap_last_5_business_days _ _ _ _ _ _ _ _ _))
      as [[[twap df]|]|e|]; cbn [ended screen] in *; try discriminate Hend.
    + destruct (IH _ _ _ Hend) as (Hm & Hr & Hp).
      cbn [token_marks panels map fst filter snd]. rewrite Hm, Hp.
      split; [reflexivity|split; [|reflexivity]].
      rewrite Hr, <- app_assoc. reflexivity.
    + destruct (IH _ _ _ Hend) as (Hm & Hr & Hp).
      cbn [token_marks panels map fst filter snd]. rewrite Hm.
      split; [reflexivity|split; assumption].
Qed.

(** A panel is never followed by anything that would pair with a later
    line: what comes after the loop's output does not change its panels. *)
Lemma for_tokens_panels_app (fuel : nat) (tf : string) (days : Z)
    (tokens : list string) :
  forall (results : list (string * R)) (w : W) (tail : list (shown R)),
  panels (screen (each fuel tf days tokens results w) ++ tail)
    = panels (screen (each fuel tf days tokens results w)) ++ panels tail /\
  token_marks (screen (each fuel tf days tokens results w) ++ tail)
    = token_marks (screen (each fuel tf days tokens results w))
      ++ token_marks tail /\
  summaries (screen (each fuel tf days tokens results w) ++ tail)
    = summaries tail.
Proof.
  induction tokens as [|token rest IH]; intros results w tail.
  - cbn. repeat split.
  - rewrite for_tokens_cons. cbn zeta.
    destruct (out (get_twap_last_5_business_days _ _ _ _ _ _ _ _ _))
      as [[[twap df]|]|e|]; cbn [screen]; try (cbn; repeat split; fail).
    + destruct (IH (results ++ [(token, twap)])
                  (final (get_twap_last_5_business_days W utcnow fetch_ohlcv
                            epoch_ms fuel token tf days w)) tail)
        as (Hp & Hm & Hs).
      cbn [app panels token_marks summaries]. rewrite Hp, Hm, Hs.
      repeat split.
    + destruct (IH results
                  (final (get_twap_last_5_business_days W utcnow fetch_ohlcv
                            epoch_ms fuel token tf days w)) tail)
        as (Hp & Hm & Hs).
      cbn [app panels token_marks summaries]. rewrite Hp, Hm, Hs.
      repeat split.
Qed.

(** Every chart the loop draws has points. *)
Lemma for_tokens_charts (fuel : nat) (tf : string) (days : Z)
    (tokens : list string) :
  forall (results : list (string * R)) (w : W) (pts : list (Z * R)),
  In (LineChart pts) (screen (each fuel tf days tokens results w)) ->
  pts <> [].
Proof.
  induction tokens as [|token rest IH]; intros results w pts Hin.
  - destruct Hin.
  - rewrite for_tokens_cons in Hin. cbn zeta in Hin.
    destruct (out (get_twap_last_5_business_days _ _ _ _ _ _ _ _ _))
      as [[[twap df]|]|e|] eqn:Hout; cbn [screen] in Hin.
    + destruct Hin as [Hin|[Hin|[Hin|Hin]]]; try discriminate Hin.
      * injection Hin as <-.
        pose proof (get_twap_returns _ _ _ _ _ _ _ _ _ _ Hout) as Hres.
        symmetry in Hres. apply aggregate_some in Hres as (-> & _ & Hne).
        destruct (filter _ _); [contradiction|discriminate].
      * apply (IH _ _ _ Hin).
    + destruct Hin as [Hin|Hin]; [discriminate Hin|]. apply (IH _ _ _ Hin).
    + destruct Hin.
    + destruct Hin.
Qed.

(** When the loop raises, the tokens shown stop short of the tokens
    picked, and the failed request is the last thing observed. *)
Lemma for_tokens_raises (fuel : nat) (tf : string) (days : Z)
    (tokens : list string) :
  forall (results : list (string * R)) (w : W) (e : string),
  ended (each fuel tf days tokens results w) = Raise e ->
  (exists token rest,
     tokens = map fst (token_marks
                         (screen (each fuel tf days tokens results w)))
              ++ token :: rest) /\
  exists s front,
    observed (each fuel tf days tokens results w)
      = front ++ [Fetched s (Failure e)].
Proof.
  induction tokens as [|token rest IH]; intros results w e Hend.
  - discriminate Hend.
  - rewrite for_tokens_cons in *. cbn zeta in *.
    destruct (out (get_twap_last_5_business_days _ _ _ _ _ _ _ _ _))
      as [[[twap df]|]|e'|] eqn:Hout; cbn [ended screen observed] in *.
    + destruct (IH _ _ _ Hend) as ((t & r & Ht) & (s & front & Hobs)).
      split.
      * exists t, r. cbn [token_marks map fst app]. rewrite <- Ht. reflexivity.
      * exists s, (trace (get_twap_last_5_business_days W utcnow fetch_ohlcv
                            epoch_ms fuel token tf days w) ++ front).
        rewrite Hobs, app_assoc. reflexivity.
    + destruct (IH _ _ _ Hend) as ((t & r & Ht) & (s & front & Hobs)).
      split.
      * exists t, r. cbn [token_marks map fst app]. rewrite <- Ht. reflexivity.
      * exists s, (trace (get_twap_last_5_business_days W utcnow fetch_ohlcv
                            epoch_ms fuel token tf days w) ++ front).
        rewrite Hobs, app_assoc. reflexivity.
    + injection Hend as ->. split.
      * exists token, rest. reflexivity.
      * apply (get_twap_raise_inv _ _ _ _ _ _ _ _ _ _ Hout).
    + discriminate Hend.
Qed.

(** When the button is pressed and the script runs through, every token
    picked gets exactly one panel or one warning, in the order picked. *)
Theorem main_accounts_for_every_token (fuel : nat) (ui : widgets) (w : W) :
  pressed ui = true ->
  ended (page fuel ui w) = Return tt ->
  map fst (token_marks (screen (page fuel ui w))) = selected_tokens ui.
Proof.
  unfold main. intros -> Hend.
  destruct (ended (each fuel (timeframe ui) (days_to_fetch ui)
                     (selected_tokens ui) [] w)) as [results|e|] eqn:Hloop;
    try discriminate Hend.
  destruct (for_tokens_returns _ _ _ _ _ _ _ Hloop) as (Hm & _ & _).
  cbn [screen token_marks].
  destruct (for_tokens_panels_app fuel (timeframe ui) (days_to_fetch ui)
              (selected_tokens ui) [] w
              match results with
              | [] => []
              | _ :: _ => [SummaryHeading; SummaryTable results]
              end) as (_ & Hmarks & _).
  rewrite Hmarks, map_app, Hm.
  destruct results; cbn; apply app_nil_r.
Qed.

(** When the script runs through, the summary table is there exactly when
    some token got a panel, it is the only one, and its rows are the
    panels: the tokens that had data, in order, each with the TWAP written
    in its panel. *)
Theorem main_summary_is_the_panels (fuel : nat) (ui : widgets) (w : W) :
  ended (page fuel ui w) = Return tt ->
  summaries (screen (page fuel ui w))
    = match panels (screen (page fuel ui w)) with
      | [] => []
      | rows => [rows]
      end /\
  map fst (panels (screen (page fuel ui w)))
    = map fst (filter snd (token_marks (screen (page fuel ui w)))).
Proof.
  unfold main. destruct (pressed ui); [|intros _; split; reflexivity].
  intros Hend.
  destruct (ended (each fuel (timeframe ui) (days_to_fetch ui)
                     (selected_tokens ui) [] w)) as [results|e|] eqn:Hloop;
    try discriminate Hend.
  destruct (for_tokens_returns _ _ _ _ _ _ _ Hloop) as (_ & Hr & Hp).
  cbn [app] in Hr. cbn [screen panels token_marks summaries].
  destruct (for_tokens_panels_app fuel (timeframe ui) (days_to_fetch ui)
              (selected_tokens ui) [] w
              match results with
              | [] => []
              | _ :: _ => [SummaryHeading; SummaryTable results]
              end) as (Hpan & Hmarks & Hsum).
  rewrite Hpan, Hmarks, Hsum, <- Hr.
  destruct results as [|row rows].
  - cbn [panels token_marks summaries]. rewrite !app_nil_r.
    rewrite <- Hr in Hp. split; [reflexivity|exact Hp].
  - cbn [panels token_marks summaries]. rewrite !app_nil_r.
    rewrite <- Hr in Hp. split; [reflexivity|exact Hp].
Qed.

(** When a fetch fails the script stops there: the error is raised, the
    failed request is the last thing done, the failing token and those
    after it get neither panel nor warning, and no summary is shown. *)
Theorem main_failure_ends_the_page (fuel : nat) (ui : widgets) (w : W)
    (e : string) :
  ended (page fuel ui w) = Raise e ->
  summaries (screen (page fuel ui w)) = [] /\
  (exists token rest,
     selected_tokens ui
       = map fst (token_marks (screen (page fuel ui w))) ++ token :: rest) /\
  exists s front,
    observed (page fuel ui w) = front ++ [Fetched s (Failure e)].
Proof.
  unfold main. destruct (pressed ui); [|discriminate].
  destruct (ended (each fuel (timeframe ui) (days_to_fetch ui)
                     (selected_tokens ui) [] w)) as [results|e'|] eqn:Hloop;
    try discriminate.
  cbn [ended screen observed]. intros He. injection He as ->.
  destruct (for_tokens_raises _ _ _ _ _ _ _ Hloop) as (Hshort & Hlast).
  destruct (for_tokens_panels_app fuel (timeframe ui) (days_to_fetch ui)
              (selected_tokens ui) [] w []) as (_ & _ & Hsum).
  rewrite app_nil_r in Hsum.
  cbn [summaries token_marks]. split; [exact Hsum|]. split; assumption.
Qed.

(** No chart on the page is empty. *)
Theorem main_charts_have_points (fuel : nat) (ui : widgets) (w : W)
    (pts : list (Z * R)) :
  In (LineChart pts) (screen (page fuel ui w)) -> pts <> [].
Proof.
  unfold main. destruct (pressed ui).
  - intros Hin.
    assert (Hloop : In (LineChart pts)
              (screen (each fuel (timeframe ui) (days_to_fetch ui)
                         (selected_tokens ui) [] w))).
    { destruct (ended (each fuel (timeframe ui) (days_to_fetch ui)
                         (selected_tokens ui) [] w)) as [results|e'|];
        cbn [screen] in Hin;
        (destruct Hin as [Hin|[Hin|Hin]]; try discriminate Hin);
        try exact Hin.
      apply in_app_or in Hin as [Hin|Hin]; [exact Hin|].
      destruct results; [destruct Hin|].
      destruct Hin as [Hin|[Hin|[]]]; discriminate Hin. }
    apply (for_tokens_charts _ _ _ _ _ _ _ Hloop).
  - intros [Hin|[]]. discriminate Hin.
Qed.

End DashboardFacts.

(** ** Paging through a book *)

Section Paging.

Context {R : Type}.

Lemma filter_sorted (p : candle R -> bool) (l : list (candle R)) :
  StronglySorted Z.lt (map timestamp l) ->
  StronglySorted Z.lt (map timestamp (filter p l)).
Proof.
  induction l as [|c l IH]; intros Hs; [constructor|].
  cbn [map] in Hs. inversion Hs as [|? ? Hl Hc]; subst.
  cbn [filter]. destruct (p c); [|apply IH; exact Hl].
  cbn [map]. constructor; [apply IH; exact Hl|].
  apply Forall_forall. intros t Ht.
  apply in_map_iff in Ht as [x [<- Hx]]. apply filter_In in Hx as [Hx _].
  rewrite Forall_forall in Hc. apply Hc. apply in_map. exact Hx.
Qed.

Lemma filter_narrower {A : Type} (p q : A -> bool) (l : list A) :
  (forall x, p x = true -> q x = true) ->
  filter p (filter q l) = filter p l.
Proof.
  intros Himp. induction l as [|x l IH]; [reflexivity|].
  cbn [filter]. destruct (q x) eqn:Hq.
  - cbn [filter]. rewrite IH. reflexivity.
  - destruct (p x) eqn:Hp; [|exact IH].
    rewrite (Himp x Hp) in Hq. discriminate Hq.
Qed.

Lemma filter_none {A : Type} (p : A -> bool) (l : list A) :
  Forall (fun x => p x = false) l -> filter p l = [].
Proof.
  induction 1 as [|x l Hx Hl IH]; [reflexivity|].
  cbn [filter]. rewrite Hx. exact IH.
Qed.

(** In a list in strict time order, what lies after the end of a leading
    page is what is left when the page is taken off. *)
Lemma after_page_is_skipn (l : list (candle R)) :
  StronglySorted Z.lt (map timestamp l) ->
  forall (n : nat) (c : candle R) (rest : list (candle R)),
  firstn n l = c :: rest ->
  filter (fun x => timestamp (last rest c) + 1 <=? timestamp x) l
    = skipn n l.
Proof.
  induction l as [|x l IH]; intros Hs n c rest Hpage.
  - destruct n; discriminate Hpage.
  - destruct n as [|m]; [discriminate Hpage|].
    cbn [firstn] in Hpage. injection Hpage as -> Hrest.
    cbn [map] in Hs. inversion Hs as [|? ? Hl Hc]; subst.
    cbn [skipn filter].
    assert (Hin : timestamp c <= timestamp (last (firstn m l) c)).
    { destruct (last_in_or_default (firstn m l) c) as [->|Hlast]; [lia|].
      apply firstn_In in Hlast. rewrite Forall_forall in Hc.
      specialize (Hc _ (in_map timestamp _ _ Hlast)). lia. }
    replace (timestamp (last (firstn m l) c) + 1 <=? timestamp c)
      with false by (symmetry; apply Z.leb_gt; lia).
    destruct (firstn m l) as [|c' rest'] eqn:Hfirst.
    + cbn [last]. destruct m as [|m'].
      * cbn [skipn]. apply filter_all.
        eapply Forall_impl; [|apply (proj1 (Forall_map _ _ _) Hc)].
        cbn beta. intros y Hy. apply Z.leb_le. lia.
      * destruct l; [reflexivity|discriminate Hfirst].
    + rewrite (last_cons_default rest' c c').
      apply (IH Hl m c' rest' Hfirst).
Qed.

Variable book : list (candle R).
Variables symbol tf : string.
Variable now_ms : Z.

Local Abbreviation from s := (filter (fun c => s <=? timestamp c) book).

(** What the loop has gathered and what the book still holds from the
    cursor on make up the book from the first cursor on. *)
Lemma book_loop_gathers (fuel : nat) :
  StronglySorted Z.lt (map timestamp book) ->
  forall (since : Z) (ohlcv res : list (candle R)) (w : Z),
  out (fetch_loop Z (book_fetch book) fuel symbol tf now_ms since ohlcv w)
    = Return res ->
  exists rest,
    ohlcv ++ from since = res ++ rest /\
    Forall (fun c => now_ms < timestamp c) rest.
Proof.
  intros Hbook.
  induction fuel as [|fuel IH]; intros since ohlcv res w Hout;
    [discriminate Hout|].
  rewrite fetch_loop_S in Hout. unfold book_fetch at 1 in Hout.
  assert (Hlim : (0 < Z.to_nat limit)%nat) by (unfold limit; lia).
  set (n := Z.to_nat limit) in *.
  pose proof (filter_sorted (fun c => since <=? timestamp c) book Hbook)
    as Hsorted.
  destruct (firstn n (from since)) as [|c rest] eqn:Hpage.
  - cbn [out] in Hout. injection Hout as <-.
    exists []. split; [|constructor].
    destruct n; [lia|]. destruct (from since); [reflexivity|discriminate Hpage].
  - pose proof (after_page_is_skipn _ Hsorted n c rest Hpage) as Hafter.
    rewrite filter_narrower in Hafter.
    2:{ intros x Hx. apply Z.leb_le in Hx. apply Z.leb_le.
        assert (Hc : In (last rest c) (from since)).
        { apply (firstn_In n). rewrite Hpage.
          destruct (last_in_or_default rest c) as [->|Hl];
            [left; reflexivity|right; exact Hl]. }
        apply filter_In in Hc as [_ Hc]. apply Z.leb_le in Hc. lia. }
    assert (Hsplit : ohlcv ++ from since
                     = (ohlcv ++ c :: rest)
                       ++ from (timestamp (last rest c) + 1)).
    { rewrite Hafter, <- app_assoc, <- Hpage, firstn_skipn. reflexivity. }
    destruct (timestamp (last rest c) >? now_ms) eqn:Hpast.
    + cbn [out] in Hout. injection Hout as <-.
      exists (from (timestamp (last rest c) + 1)). split; [exact Hsplit|].
      rewrite Z.gtb_ltb in Hpast. apply Z.ltb_lt in Hpast.
      apply Forall_forall. intros x Hx. apply filter_In in Hx as [_ Hx].
      apply Z.leb_le in Hx. lia.
    + cbn [out] in Hout. rewrite Hsplit. apply (IH _ _ _ _ Hout).
Qed.

(** The exchange with a book never fails. *)
Lemma book_loop_never_raises (fuel : nat) :
  forall (since : Z) (ohlcv : list (candle R)) (w : Z) (e : string),
  out (fetch_loop Z (book_fetch book) fuel symbol tf now_ms since ohlcv w)
    <> Raise e.
Proof.
  induction fuel as [|fuel IH]; intros since ohlcv w e; [discriminate|].
  rewrite fetch_loop_S. unfold book_fetch at 1.
  destruct (firstn _ _) as [|c rest]; [discriminate|].
  destruct (timestamp (last rest c) >? now_ms); [discriminate|].
  cbn [out]. apply IH.
Qed.

(** Against an exchange that serves, for any cursor, the earliest candles
    at or after it out of a book in strict time order, a page at a time,
    the loop, given fuel for the range, returns the book from [since] on,
    in order and each candle once, short only of candles later than
    [now_ms]: every candle of the book between [since] and [now_ms] is in
    what it returns. *)
Theorem book_is_fetched_up_to_now (fuel : nat) (since : Z) (w : Z) :
  ascending (map timestamp book) = true ->
  (Z.to_nat (now_ms - since + 1) < fuel)%nat ->
  exists res rest,
    out (fetch_loop Z (book_fetch book) fuel symbol tf now_ms since [] w)
      = Return res /\
    filter (fun c => since <=? timestamp c) book = res ++ rest /\
    Forall (fun c => now_ms < timestamp c) rest /\
    forall c, In c book -> since <= timestamp c <= now_ms -> In c res.
Proof.
  intros Hasc Hfuel.
  pose proof (fetch_loop_not_dry Z (book_fetch book) symbol tf now_ms fuel
                since [] w (book_fetch_honours_since book symbol tf) Hfuel)
    as Hdry.
  pose proof (book_loop_never_raises fuel since [] w) as Hraise.
  destruct (out (fetch_loop Z (book_fetch book) fuel symbol tf now_ms
                   since [] w)) as [res|e|] eqn:Hout;
    [|exfalso; apply (Hraise e); reflexivity|contradiction].
  destruct (book_loop_gathers fuel (ascending_sorted _ Hasc) since [] res w
              Hout) as (rest & Hsplit & Hlate).
  cbn [app] in Hsplit.
  exists res, rest. split; [reflexivity|split; [exact Hsplit|]].
  split; [exact Hlate|].
  intros c Hc [Hlo Hhi].
  assert (Hin : In c (res ++ rest)).
  { rewrite <- Hsplit. apply filter_In. split; [exact Hc|].
    apply Z.leb_le. exact Hlo. }
  apply in_app_or in Hin as [Hin|Hin]; [exact Hin|].
  rewrite Forall_forall in Hlate. specialize (Hlate c Hin). lia.
Qed.

End Paging.

(** ** More scenarios, run *)

Lemma frame_not_before_since_witness :
  exists twap df,
    out run_book = Return (Some (twap, df)) /\
    Forall (fun rw =>
              utc_epoch_ms (fst (still_clock noon20) - 5 * day_us)
                <= timestamp (bar rw)) df.
Proof.
  eexists; eexists. split; [vm_compute; reflexivity|].
  eapply (frame_not_before_since Z still_clock (book_fetch [c16; c17; c18])
            utc_epoch_ms 5 "X/USDT" "1d" 5 noon20).
  - vm_compute. reflexivity.
  - vm_compute. reflexivity.
Defined.

Lemma only_last_page_passes_now_witness :
  Forall (fun c => timestamp c <= utc_epoch_ms (fst (script_clock two_pages)))
         (concat [[c16; c17]; [c18]]).
Proof.
  eapply (only_last_page_passes_now _ script_clock script_fetch utc_epoch_ms
            5 "X/USDT" "1d" 5 two_pages _ [[c16; c17]; [c18]] []).
  - vm_compute. reflexivity.
  - vm_compute. reflexivity.
  - vm_compute. reflexivity.
Defined.

Lemma frame_strictly_ascending_witness :
  exists twap df,
    out run_two_pages = Return (Some (twap, df)) /\
    StronglySorted Z.lt (map (fun rw => timestamp (bar rw)) df) /\
    NoDup (map (fun rw => timestamp (bar rw)) df).
Proof.
  eexists; eexists. split; [vm_compute; reflexivity|].
  eapply (frame_strictly_ascending _ script_clock script_fetch utc_epoch_ms
            5 "X/USDT" "1d" 5 two_pages).
  - vm_compute. reflexivity.
  - vm_compute. reflexivity.
Defined.

Lemma date_filter_keeps_all_witness :
  exists res,
    out run_book = Return res /\
    kept res = fetched (trace run_book).
Proof.
  eexists. split; [vm_compute; reflexivity|].
  apply (date_filter_keeps_all Z still_clock (book_fetch [c16; c17; c18])
           utc_epoch_ms 5 "X/USDT" "1d" 5 noon20).
  - vm_compute. reflexivity.
  - vm_compute. reflexivity.
  - apply Z.leb_le. vm_compute. reflexivity.
Defined.

Lemma twap_is_pandas_mean_of_window_witness :
  exists twap df,
    out run_float = Return (Some (twap, df)) /\
    map bar df = window_rows (trace run_float) 5 /\
    df <> [] /\
    (count_present (map typical (map bar df)) = 0%nat -> twap = nan) /\
    (count_present (map typical (map bar df)) <> 0%nat ->
     twap = PrimFloat.div
              (np_sum (nan_to_zero (map typical (map bar df))))
              (float_of_nat (count_present (map typical (map bar df))))) /\
    (forallb (fun x => negb (PrimFloat.is_nan x)) (map typical (map bar df))
       = true ->
     twap = PrimFloat.div (np_sum (map typical (map bar df)))
                          (float_of_nat (length df))) /\
    (forall rw, df = [rw] ->
       (typical (bar rw) <> (-0)%float -> twap = typical (bar rw)) /\
       (PrimFloat.is_nan (typical (bar rw)) = false ->
        PrimFloat.eqb twap (typical (bar rw)) = true)) /\
    (forall r1 r2 r3, df = [r1; r2; r3] ->
       typical (bar r1) = 10%float -> typical (bar r2) = 20%float ->
       typical (bar r3) = 30%float -> twap = 20%float).
Proof.
  eexists; eexists. split; [vm_compute; reflexivity|].
  apply (twap_is_pandas_mean_of_window _ script_clock script_fetch
           utc_epoch_ms 5 "X/USDT" "1d" 5 float_pages).
  vm_compute. reflexivity.
Defined.

Lemma twap_under_reordering_witness :
  option_map fst (aggregate [f16; f17] 20 5)
    = option_map fst (aggregate [f17; f16] 20 5) /\
  option_map fst (aggregate [c16; c17; c18] 20 5)
    = option_map fst (aggregate [c18; c16; c17] 20 5) /\
  count_present (map typical (filter (keep (20 - 5)) big_first))
    = count_present (map typical (filter (keep (20 - 5)) big_last)).
Proof.
  destruct twap_under_reordering as (Hany & Hfloat & Hexact).
  split; [|split].
  - apply (Hfloat [f16; f17] [f17; f16] 20 5).
    + apply perm_swap.
    + vm_compute. lia.
  - apply (Hexact [c16; c17; c18] [c18; c16; c17] 20 5).
    apply Permutation_sym. exact (Permutation_cons_append [c16; c17] c18).
  - apply (Hany float FloatArith big_first big_last 20 5).
    unfold big_first, big_last.
    eapply Permutation_trans; [apply Permutation_cons_append|]. reflexivity.
Defined.

Lemma twap_ignores_open_and_volume_witness :
  option_map fst (aggregate [c16; c17] 20 5)
    = option_map fst (aggregate [c16'; c17'] 20 5).
Proof.
  apply (twap_ignores_open_and_volume [c16; c17] [c16'; c17'] 20 5).
  repeat constructor.
Defined.

Lemma book_is_fetched_up_to_now_witness :
  exists res rest,
    out loop_small_book = Return res /\
    filter (fun c => 0 <=? timestamp c) small_book = res ++ rest /\
    Forall (fun c => 5 < timestamp c) rest /\
    forall c, In c small_book -> 0 <= timestamp c <= 5 -> In c res.
Proof.
  apply (book_is_fetched_up_to_now small_book "X/USDT" "1m" 5 7 0 0).
  - vm_compute. reflexivity.
  - vm_compute. lia.
Defined.

Lemma main_accounts_for_every_token_witness :
  map fst (token_marks (screen main_book)) = selected_tokens ui_two.
Proof.
  apply (main_accounts_for_every_token Z still_clock
           (book_fetch [c16; c17; c18]) utc_epoch_ms 5 ui_two noon20).
  - reflexivity.
  - vm_compute. reflexivity.
Defined.

Lemma main_summary_is_the_panels_witness :
  summaries (screen main_book)
    = match panels (screen main_book) with
      | [] => []
      | rows => [rows]
      end /\
  map fst (panels (screen main_book))
    = map fst (filter snd (token_marks (screen main_book))).
Proof.
  apply (main_summary_is_the_panels Z still_clock
           (book_fetch [c16; c17; c18]) utc_epoch_ms 5 ui_two noon20).
  vm_compute. reflexivity.
Defined.

Lemma main_failure_ends_the_page_witness :
  summaries (screen main_failing) = [] /\
  (exists token rest,
     selected_tokens ui_two
       = map fst (token_marks (screen main_failing)) ++ token :: rest) /\
  exists s front,
    observed main_failing = front ++ [Fetched s (Failure "BadSymbol")].
Proof.
  apply (main_failure_ends_the_page _ script_clock script_fetch utc_epoch_ms
           5 ui_two failing_token "BadSymbol").
  vm_compute. reflexivity.
Defined.

Lemma main_charts_have_points_witness :
  exists pts, In (LineChart pts) (screen main_book) /\ pts <> [].
Proof.
  eexists. split.
  - vm_compute. right; right; right; right; left. reflexivity.
  - apply (main_charts_have_points Z still_clock (book_fetch [c16; c17; c18])
             utc_epoch_ms 5 ui_two noon20).
    vm_compute. right; right; right; right; left. reflexivity.
Defined.

(** The page of the failing scenario: the first token has its panel, the
    second has nothing, and there is no summary. *)
Example failing_page_shows_one_panel :
  token_marks (screen main_failing) = [("FARTBOY/USDT"%string, true)] /\
  ended main_failing = Raise "BadSymbol".
Proof. split; vm_compute; reflexivity. Qed.

(** ** The mean and the clock in binary64, worked *)

(** Eight typical prices are added as eight running sums, pairwise. *)
Example pairwise_mean_of_eight :
  mean eight_prices = 1250000000000000.75%float /\
  arithmetic_mean eight_prices = 1250000000000000%float.
Proof. split; reflexivity. Qed.

(** A typical price, and with it the TWAP of a single candle, can pass the
    candle's high. *)
Example typical_price_can_pass_the_high :
  PrimFloat.ltb (high tenth) (typical tenth) = true /\
  option_map fst (aggregate [tenth] 20 5) = Some (typical tenth).
Proof. split; reflexivity. Qed.

(** The float conversion of the clock agrees with the exact one on the
    readings of the scenarios, and falls a millisecond short on others. *)
Example epoch_conversions_on_the_scenarios :
  float_epoch_ms noon20 = utc_epoch_ms noon20 /\
  float_epoch_ms (noon20 - 5 * day_us) = utc_epoch_ms (noon20 - 5 * day_us) /\
  float_epoch_ms (noon20 - 4 * day_us) = utc_epoch_ms (noon20 - 4 * day_us) /\
  float_epoch_ms 2158963200002000 = utc_epoch_ms 2158963200002000 - 1.
Proof. repeat split; vm_compute; reflexivity. Qed.
